(** * agriwebb-rain: the Tempest-to-AgriWebb rainfall relay

    A shallow embedding of the Python sources [tempest.py], [agriwebb.py],
    [utils.py] and [main.py], and the properties of the rainfall extractor,
    the observation normaliser, the sensor resolver, the publisher and the
    orchestrator.

    Layout: [Py] holds the fragment of Python's data model the sources rely
    on (JSON values, truthiness, [in], subscripting, [int()], [round()]);
    [Effects] the remote world the job talks to; [Tempest], [Utils],
    [AgriWebb] and [Main] follow the source modules. *)

From Stdlib Require Import ZArith List String Ascii Bool Lia.
From Stdlib Require Import Floats.PrimFloat Floats.FloatOps Floats.SpecFloat.
Import ListNotations.

Set Warnings "-inexact-float,-register-all".
Local Open Scope string_scope.
Local Open Scope Z_scope.

(* ================================================================= *)
(** ** Python values, exceptions and the builtins the sources use *)

Module Py.

(** What [json.loads] (through [response.json()]) can produce.  A [dict] is
    kept as its items in insertion order, because [field_map.items()] is
    iterated in that order. *)
Inductive pyval : Type :=
| PNone
| PBool (b : bool)
| PInt (z : Z)
| PFloat (f : float)
| PStr (s : string)
| PList (l : list pyval)
| PDict (d : list (string * pyval)).

Definition dict := list (string * pyval).

(** [RequestException] carries [e.response]: [None] when no response was
    received, otherwise the response's JSON body if it has one. *)
Inductive exn : Type :=
| TypeError
| KeyError
| IndexError
| AttributeError
| OverflowError
| ValueError (msg : string)
| NameError (name : string)
| RequestException (response : option (option pyval))
| JSONDecodeError.

(** Outcome of evaluating a Python expression or block. *)
Inductive result (A : Type) : Type :=
| Ok (a : A)
| Raise (e : exn).
Arguments Ok {A} a.
Arguments Raise {A} e.

Definition rbind {A B} (r : result A) (k : A -> result B) : result B :=
  match r with
  | Ok a => k a
  | Raise e => Raise e
  end.

(** [try: body  except Exception: handler] for a pure body. *)
Definition try_except {A} (body : result A) (handler : exn -> result A)
  : result A :=
  match body with
  | Ok a => Ok a
  | Raise e => handler e
  end.

Module Import Notations.
Notation "x <- c ;; k" := (rbind c (fun x => k))
  (at level 61, c at next level, right associativity).
End Notations.

(** *** Strings *)

Fixpoint starts_with (p s : string) : bool :=
  match p, s with
  | EmptyString, _ => true
  | String a p', String b s' => Ascii.eqb a b && starts_with p' s'
  | String _ _, EmptyString => false
  end.

(** [needle in hay] for two [str]. *)
Fixpoint str_contains (needle hay : string) : bool :=
  starts_with needle hay ||
  match hay with
  | EmptyString => false
  | String _ hay' => str_contains needle hay'
  end.

(** [sep.join(parts)] *)
Fixpoint join (sep : string) (parts : list string) : string :=
  match parts with
  | [] => ""
  | [p] => p
  | p :: rest => p ++ sep ++ join sep rest
  end.

(** *** Dictionaries *)

Fixpoint lookup (k : string) (d : dict) : option pyval :=
  match d with
  | [] => None
  | (k', v) :: d' => if String.eqb k k' then Some v else lookup k d'
  end.

(** [k in d] *)
Definition mem (k : string) (d : dict) : bool :=
  match lookup k d with
  | Some _ => true
  | None => false
  end.

(** [d.get(k, default)] *)
Definition dict_get (d : dict) (k : string) (default : pyval) : pyval :=
  match lookup k d with
  | Some v => v
  | None => default
  end.

(** *** Truth value testing, [==], [in], [len], subscripting *)

Definition truthy (v : pyval) : bool :=
  match v with
  | PNone => false
  | PBool b => b
  | PInt z => negb (z =? 0)
  | PFloat f => negb (PrimFloat.eqb f 0%float)
  | PStr s => negb (String.eqb s "")
  | PList l => match l with [] => false | _ :: _ => true end
  | PDict d => match d with [] => false | _ :: _ => true end
  end.

(** [v == s] for a [str] literal [s]. *)
Definition eq_str (v : pyval) (s : string) : bool :=
  match v with
  | PStr s' => String.eqb s' s
  | _ => false
  end.

(** [s in c] for a [str] literal [s]. *)
Definition py_contains (s : string) (c : pyval) : result bool :=
  match c with
  | PDict d => Ok (mem s d)
  | PList l => Ok (existsb (fun x => eq_str x s) l)
  | PStr h => Ok (str_contains s h)
  | PNone | PBool _ | PInt _ | PFloat _ => Raise TypeError
  end.

(** [c[s]] for a [str] literal [s]. *)
Definition getitem_str (c : pyval) (s : string) : result pyval :=
  match c with
  | PDict d => match lookup s d with
               | Some v => Ok v
               | None => Raise KeyError
               end
  | _ => Raise TypeError
  end.

Definition py_len (c : pyval) : result Z :=
  match c with
  | PDict d => Ok (Z.of_nat (List.length d))
  | PList l => Ok (Z.of_nat (List.length l))
  | PStr s => Ok (Z.of_nat (String.length s))
  | PNone | PBool _ | PInt _ | PFloat _ => Raise TypeError
  end.

(** [l[i]] on a list, with Python's negative indices. *)
Definition list_index (l : list pyval) (i : Z) : result pyval :=
  let n := Z.of_nat (List.length l) in
  let j := if i <? 0 then i + n else i in
  if (0 <=? j) && (j <? n)
  then match nth_error l (Z.to_nat j) with
       | Some v => Ok v
       | None => Raise IndexError
       end
  else Raise IndexError.

(** [c[i]] for an integer [i].  A JSON object has string keys only, so an
    integer subscript on a [dict] is a [KeyError]. *)
Definition getitem_int (c : pyval) (i : Z) : result pyval :=
  match c with
  | PList l => list_index l i
  | PStr s =>
      let n := Z.of_nat (String.length s) in
      let j := if i <? 0 then i + n else i in
      if (0 <=? j) && (j <? n)
      then Ok (PStr (String.substring (Z.to_nat j) 1 s))
      else Raise IndexError
  | PDict _ => Raise KeyError
  | PNone | PBool _ | PInt _ | PFloat _ => Raise TypeError
  end.

(** [c.get(k)] and [c.get(k, default)]: only a [dict] has the method. *)
Definition py_get (c : pyval) (k : string) (default : pyval) : result pyval :=
  match c with
  | PDict d => Ok (dict_get d k default)
  | _ => Raise AttributeError
  end.

(** [a or b] *)
Definition py_or (a b : pyval) : pyval := if truthy a then a else b.

(** [type(v).__name__] *)
Definition type_name (v : pyval) : string :=
  match v with
  | PNone => "NoneType"
  | PBool _ => "bool"
  | PInt _ => "int"
  | PFloat _ => "float"
  | PStr _ => "str"
  | PList _ => "list"
  | PDict _ => "dict"
  end.

(** [c.items()] *)
Definition py_items (c : pyval) : result dict :=
  match c with
  | PDict d => Ok d
  | _ => Raise AttributeError
  end.

(** *** [int(s)] on a [str], base 10

    White space is stripped on both sides, one sign is allowed, and single
    underscores may separate digits.  The text is taken to be ASCII. *)

Definition is_space (a : ascii) : bool :=
  let n := Z.of_nat (nat_of_ascii a) in
  ((9 <=? n) && (n <=? 13)) || (n =? 32).

Definition digit_of (a : ascii) : option Z :=
  let n := Z.of_nat (nat_of_ascii a) in
  if (48 <=? n) && (n <=? 57) then Some (n - 48) else None.

Fixpoint lstrip (s : string) : string :=
  match s with
  | String a s' => if is_space a then lstrip s' else s
  | EmptyString => EmptyString
  end.

Fixpoint all_space (s : string) : bool :=
  match s with
  | EmptyString => true
  | String a s' => is_space a && all_space s'
  end.

(** [digits acc prev_digit s]: [prev_digit] tells whether the character
    just read was a digit, so that an underscore is legal here. *)
Fixpoint digits (acc : Z) (prev_digit : bool) (s : string) : option Z :=
  match s with
  | EmptyString => if prev_digit then Some acc else None
  | String a s' =>
      match digit_of a with
      | Some d => digits (10 * acc + d) true s'
      | None =>
          if Ascii.eqb a "_"%char
          then (if prev_digit then digits acc false s' else None)
          else if prev_digit && all_space s then Some acc else None
      end
  end.

Definition int_of_str (s : string) : result Z :=
  let body := lstrip s in
  let '(neg, rest) :=
    match body with
    | String "-"%char r => (true, r)
    | String "+"%char r => (false, r)
    | _ => (false, body)
    end in
  match digits 0 false rest with
  | Some n => Ok (if neg then - n else n)
  | None => Raise (ValueError "invalid literal for int() with base 10")
  end.

(** *** Floating point: binary64, as CPython's [float]

    [PrimFloat] is IEEE 754 binary64 with round-to-nearest-even, which is
    what [*] and [/] on Python floats compute. *)

(** [float(z)] for an [int]: the nearest double, [OverflowError] when it
    is out of range. *)
Definition float_of_int (z : Z) : result float :=
  match binary_normalize prec emax z 0 false with
  | S754_infinity _ => Raise OverflowError
  | sf => Ok (SF2Prim sf)
  end.

(** [v * c] for a float [c]: numbers are converted to [float]; a sequence,
    a mapping or [None] times a float is a [TypeError]. *)
Definition mul_float (v : pyval) (c : float) : result float :=
  match v with
  | PFloat f => Ok (f * c)%float
  | PInt z => f <- float_of_int z ;; Ok (f * c)%float
  | PBool b => Ok ((if b then 1 else 0) * c)%float
  | PNone | PStr _ | PList _ | PDict _ => Raise TypeError
  end.

(** Nearest integer to [num / den], ties to even ([0 <= num], [0 < den]). *)
Definition round_half_even (num den : Z) : Z :=
  let q := num / den in
  let r := num mod den in
  match 2 * r ?= den with
  | Lt => q
  | Gt => q + 1
  | Eq => if Z.even q then q else q + 1
  end.

(** The double nearest to [(-1)^s * num / den]. *)
Definition nearest_float (s : bool) (num den : Z) : float :=
  match num, den with
  | Zpos n, Zpos d =>
      SF2Prim (SFdiv prec emax (S754_finite s n 0) (S754_finite false d 0))
  | _, _ => SF2Prim (S754_zero s)
  end.

(** [round(x, ndigits)] for a float [x] and [0 <= ndigits]: CPython rounds
    the exact value of [x] to [ndigits] decimals, ties to even, and reads
    the decimal back as the nearest double; infinities and NaN round to
    themselves, and so does everything when [ndigits] exceeds 323. *)
Definition py_round (x : float) (ndigits : nat) : float :=
  if (323 <? Z.of_nat ndigits) then x else
  match Prim2SF x with
  | S754_finite s m e =>
      let p := 10 ^ Z.of_nat ndigits in
      let n := if 0 <=? e
               then Zpos m * 2 ^ e * p
               else round_half_even (Zpos m * p) (2 ^ (- e)) in
      nearest_float s n p
  | _ => x
  end.

End Py.

Export Py.
Import Py.Notations.

(* ================================================================= *)
(** ** The world outside: clock, parameter store, the two HTTP APIs *)

Module Effects.

(** A request leaving the process.  The GraphQL documents that
    [agriwebb.py] builds by [%]-formatting are kept by their operation and
    the values substituted into them. *)
Inductive graphql : Type :=
| EnumValuesQuery (enum_name : pyval)
| MapFeaturesQuery (type_eq : string) (farmId_eq : pyval)
| AddRainfallsMutation (farmId sensorId : pyval) (value : float)
                       (unit mode : string) (time : Z).

Inductive request : Type :=
| TempestObservations (base : string) (station_id token : pyval)
                      (time_start time_end : Z)
| AgriwebbPost (url : string) (api_key : pyval) (document : graphql).

(** What comes back, as [requests] shows it to the caller. *)
Inductive http_reply : Type :=
| Reply (body : pyval)              (* status below 400, JSON body *)
| ReplyNotJson                      (* status below 400, body not JSON *)
| ErrorStatus (body : option pyval) (* 4xx or 5xx, JSON body if any *)
| NoReply.                          (* connection error or timeout *)

Inductive ssm_reply : Type :=
| SsmResponse (response : pyval)
| ClientError (code text : string)
| SsmFailure (text : string).

Inductive log_record : Type :=
| UnexpectedObservationFormat (idx : Z) (type : string)
| ErrorProcessingObservation (idx : Z) (e : exn).

Inductive event : Type :=
| GetParameter (name : string)
| Sent (r : request)
| Warning (w : log_record).

(** [clock n] is the [n]-th reading of [datetime.now(timezone.utc)] in
    whole POSIX seconds; [replies] are the answers of the remote servers in
    the order the requests are made; [trace] is what the invocation has
    done so far. *)
Record world : Type := {
  clock : nat -> Z;
  ticks : nat;
  ssm : string -> ssm_reply;
  replies : list http_reply;
  trace : list event
}.

Definition M (A : Type) : Type := world -> result A * world.

Definition ret {A} (a : A) : M A := fun w => (Ok a, w).
Definition raise {A} (e : exn) : M A := fun w => (Raise e, w).
Definition lift {A} (r : result A) : M A := fun w => (r, w).

Definition bind {A B} (m : M A) (k : A -> M B) : M B :=
  fun w =>
    match m w with
    | (Ok a, w') => k a w'
    | (Raise e, w') => (Raise e, w')
    end.

(** [try: body  except ... as e: handler e] *)
Definition try_with {A} (body : M A) (handler : exn -> M A) : M A :=
  fun w =>
    match body w with
    | (Ok a, w') => (Ok a, w')
    | (Raise e, w') => handler e w'
    end.

Definition emit (e : event) : M unit :=
  fun w => (Ok tt, {| clock := clock w; ticks := ticks w; ssm := ssm w;
                      replies := replies w;
                      trace := (trace w ++ [e])%list |}).

Definition now : M Z :=
  fun w => (Ok (clock w (ticks w)),
            {| clock := clock w; ticks := S (ticks w); ssm := ssm w;
               replies := replies w; trace := trace w |}).

(** One HTTP exchange; a server that never answers is a timeout. *)
Definition send (r : request) : M http_reply :=
  fun w =>
    let '(reply, rest) :=
      match replies w with
      | [] => (NoReply, [])
      | reply :: rest => (reply, rest)
      end in
    (Ok reply, {| clock := clock w; ticks := ticks w; ssm := ssm w;
                  replies := rest;
                  trace := (trace w ++ [Sent r])%list |}).

Definition read_parameter (name : string) : M ssm_reply :=
  fun w => (Ok (ssm w name),
            {| clock := clock w; ticks := ticks w; ssm := ssm w;
               replies := replies w;
               trace := (trace w ++ [GetParameter name])%list |}).

Module Import Notations.
Notation "x <~ c ;; k" := (bind c (fun x => k))
  (at level 61, c at next level, right associativity).
End Notations.

(** The world after the exchange [r], when [rest] is what the servers
    have still to say. *)
Definition answered (w : world) (r : request) (rest : list http_reply) : world :=
  {| clock := clock w; ticks := ticks w; ssm := ssm w; replies := rest;
     trace := (trace w ++ [Sent r])%list |}.

(** [requests.get]/[requests.post] with [timeout=30], then
    [response.raise_for_status()] and [response.json()]. *)
Definition exchange (r : request) : M pyval :=
  reply <~ send r ;;
  match reply with
  | Reply body => ret body
  | ReplyNotJson => raise JSONDecodeError
  | ErrorStatus body => raise (RequestException (Some body))
  | NoReply => raise (RequestException None)
  end.

End Effects.

Export Effects.
Import Effects.Notations.

(* ================================================================= *)
(** ** tempest.py *)

Module Tempest.

Definition TEMPEST_API_BASE : string := "https://swd.weatherflow.com/swd/rest".

Definition KEY : string := "precip_accum_local_yesterday".

(** *** [extract_precip_accum_local_yesterday]

    Each probe answers [Some v] when the source executes [return value]
    and [None] when control falls through to the next check. *)

(** [if c and KEY in c: return c[KEY]] (lines 115-118 and 122-125). *)
Definition probe (c : pyval) : result (option pyval) :=
  if truthy c then
    found <- py_contains KEY c ;;
    if found then (value <- getitem_str c KEY ;; Ok (Some value))
    else Ok None
  else Ok None.

(** The [for idx, field_name in field_map.items()] loop (lines 146-150):
    the first entry whose name is the key decides, through [int(idx)]. *)
Fixpoint find_field_index (items : dict) : result (option Z) :=
  match items with
  | [] => Ok None
  | (idx, field_name) :: rest =>
      if eq_str field_name KEY
      then (i <- int_of_str idx ;; Ok (Some i))
      else find_field_index rest
  end.

(** Lines 142-154, for a list-encoded latest observation. *)
Definition probe_field_map (api_response : dict) (latest_obs : list pyval)
  : result (option pyval) :=
  if 0 <? Z.of_nat (List.length latest_obs) then
    let field_map := dict_get api_response "field_map" (PDict []) in
    if truthy field_map then
      items <- py_items field_map ;;
      field_index <- find_field_index items ;;
      match field_index with
      | Some i =>
          if i <? Z.of_nat (List.length latest_obs)
          then (value <- list_index latest_obs i ;; Ok (Some value))
          else Ok None
      | None => Ok None
      end
    else Ok None
  else Ok None.

(** Lines 128-154. *)
Definition probe_obs (api_response : dict) : result (option pyval) :=
  let obs := dict_get api_response "obs" (PList []) in
  if truthy obs then
    n <- py_len obs ;;
    if 0 <? n then
      latest_obs <- getitem_int obs (-1) ;;
      match latest_obs with
      | PDict _ =>
          found <- py_contains KEY latest_obs ;;
          if found then (value <- getitem_str latest_obs KEY ;; Ok (Some value))
          else Ok None
      | PList l => probe_field_map api_response l
      | _ => Ok None
      end
    else Ok None
  else Ok None.

(** The body of the [try] (lines 111-164). *)
Definition extract_body (api_response : pyval) : result pyval :=
  match api_response with
  | PDict d =>
      in_summary <- probe (dict_get d "summary" (PDict [])) ;;
      match in_summary with
      | Some value => Ok value
      | None =>
          in_obs_summary <- probe (dict_get d "obs_summary" (PDict [])) ;;
          match in_obs_summary with
          | Some value => Ok value
          | None =>
              in_obs <- probe_obs d ;;
              match in_obs with
              | Some value => Ok value
              | None =>
                  if mem KEY d
                  then getitem_str api_response KEY
                  else Ok PNone
              end
          end
      end
  | _ => Ok PNone
  end.

(** The whole function: [except Exception] logs and returns [None]. *)
Definition extract_precip_accum_local_yesterday (api_response : pyval)
  : result pyval :=
  try_except (extract_body api_response) (fun _ => Ok PNone).

(** *** [get_yesterday_rainfall_data] *)

(** [for ... in v]: the elements of a list, the characters of a [str],
    the keys of a [dict]. *)
Definition py_iter (v : pyval) : result (list pyval) :=
  match v with
  | PList l => Ok l
  | PStr s => Ok (map (fun a => PStr (String a EmptyString)) (list_ascii_of_string s))
  | PDict d => Ok (map (fun kv => PStr (fst kv)) d)
  | PNone | PBool _ | PInt _ | PFloat _ => Raise TypeError
  end.

(** The wrapper [{'timestamp': ..., 'observation': obs}]. *)
Definition wrapper (timestamp obs : pyval) : pyval :=
  PDict [("timestamp", timestamp); ("observation", obs)].

(** The body of the inner [try] (lines 65-80) for the observation at
    [idx]: the wrappers appended and the warnings logged. *)
Definition normalize_body (idx : Z) (obs : pyval)
  : result (list pyval * list log_record) :=
  match obs with
  | PList l =>
      if 0 <? Z.of_nat (List.length l) then
        timestamp <- (if 0 <? Z.of_nat (List.length l)
                      then list_index l 0 else Ok PNone) ;;
        Ok ([wrapper timestamp obs], [])
      else Ok ([], [])
  | PDict d =>
      let timestamp :=
        py_or (py_or (dict_get d "timestamp" PNone) (dict_get d "time" PNone))
              (dict_get d "ts" PNone) in
      Ok ([wrapper timestamp obs], [])
  | _ => Ok ([], [UnexpectedObservationFormat idx (type_name obs)])
  end.

(** [except (IndexError, KeyError, TypeError) as e: warn; continue] *)
Definition normalize_one (idx : Z) (obs : pyval)
  : result (list pyval * list log_record) :=
  try_except (normalize_body idx obs)
    (fun e => match e with
              | IndexError | KeyError | TypeError =>
                  Ok ([], [ErrorProcessingObservation idx e])
              | _ => Raise e
              end).

(** The [for idx, obs in enumerate(observations)] loop, from index [idx]. *)
Fixpoint normalize_from (idx : Z) (observations : list pyval)
  : result (list pyval * list log_record) :=
  match observations with
  | [] => Ok ([], [])
  | obs :: rest =>
      here <- normalize_one idx obs ;;
      after <- normalize_from (idx + 1) rest ;;
      Ok ((fst here ++ fst after)%list, (snd here ++ snd after)%list)
  end.

(** Lines 53-57. *)
Definition observations_of (data : pyval) : pyval :=
  match data with
  | PDict d => dict_get d "obs" (PList [])
  | PList _ => data
  | _ => PList []
  end.

(** Lines 53-85 on the decoded body: [len(observations)] is taken for the
    log line before the loop starts. *)
Definition normalize (data : pyval) : result (list pyval * list log_record) :=
  let observations := observations_of data in
  _ <- py_len observations ;;
  items <- py_iter observations ;;
  normalize_from 0 items.

Fixpoint emit_all (ws : list log_record) : M unit :=
  match ws with
  | [] => ret tt
  | w :: rest => _ <~ emit (Warning w) ;; emit_all rest
  end.

Definition SECONDS_PER_DAY : Z := 86400.

(** Midnight UTC of the day before the one [t] falls in. *)
Definition yesterday_start (t : Z) : Z :=
  (t - SECONDS_PER_DAY) / SECONDS_PER_DAY * SECONDS_PER_DAY.

(** Both handlers (lines 87-92) log and re-raise. *)
Definition get_yesterday_rainfall_data (token station_id : pyval)
  : M (list pyval * pyval) :=
  t <~ now ;;
  let time_start := yesterday_start t in
  let time_end := time_start + SECONDS_PER_DAY in
  try_with
    (data <~ exchange (TempestObservations TEMPEST_API_BASE station_id token
                                            time_start time_end) ;;
     out <~ lift (normalize data) ;;
     _ <~ emit_all (snd out) ;;
     ret (fst out, data))
    (fun e => raise e).

End Tempest.

(* ================================================================= *)
(** ** utils.py *)

Module Utils.

(** [str(e)] for the exceptions whose text reaches a message; Python's
    wording for the built-in ones is not reproduced. *)
Definition exn_text (e : exn) : string :=
  match e with
  | ValueError msg => msg
  | NameError name => "name '" ++ name ++ "' is not defined"
  | TypeError => "TypeError"
  | KeyError => "KeyError"
  | IndexError => "IndexError"
  | AttributeError => "AttributeError"
  | OverflowError => "OverflowError"
  | RequestException _ => "RequestException"
  | JSONDecodeError => "JSONDecodeError"
  end.

(** Lines 34-39, inside the [try]. *)
Definition parameter_value (parameter_name : string) (response : pyval)
  : result pyval :=
  has_parameter <- py_contains "Parameter" response ;;
  missing <- (if negb has_parameter then Ok true
              else (parameter <- getitem_str response "Parameter" ;;
                    has_value <- py_contains "Value" parameter ;;
                    Ok (negb has_value))) ;;
  if missing
  then Raise (ValueError ("Unexpected SSM response structure for parameter '"
                          ++ parameter_name ++ "'"))
  else (parameter <- getitem_str response "Parameter" ;;
        getitem_str parameter "Value").

Definition get_parameter_from_ssm (parameter_name : string) : M pyval :=
  reply <~ read_parameter parameter_name ;;
  match reply with
  | SsmResponse response =>
      lift (try_except (parameter_value parameter_name response)
              (fun e => Raise (ValueError
                 ("Unexpected error retrieving SSM parameter '"
                  ++ parameter_name ++ "': " ++ exn_text e))))
  | ClientError code text =>
      if String.eqb code "ParameterNotFound" then
        raise (ValueError ("SSM parameter '" ++ parameter_name ++ "' not found"))
      else if String.eqb code "AccessDeniedException" then
        raise (ValueError ("Access denied to SSM parameter '" ++ parameter_name
                           ++ "'. Check IAM permissions."))
      else
        raise (ValueError ("Error retrieving SSM parameter '" ++ parameter_name
                           ++ "': " ++ text))
  | SsmFailure text =>
      raise (ValueError ("Unexpected error retrieving SSM parameter '"
                         ++ parameter_name ++ "': " ++ text))
  end.

End Utils.

(* ================================================================= *)
(** ** agriwebb.py *)

Module AgriWebb.

Definition AGRIWEBB_API_BASE : string := "https://api.agriwebb.com/v2".
Definition RAIN_GAUGE_NAME : string := "Tempest".
Definition RAIN_GAUGE_UNIT : string := "inch".
Definition RAIN_GAUGE_MODE : string := "cumulative".

(** The type tag written into the [mapFeatures] filter. *)
Definition RAIN_GAUGE : string := "RAIN_GAUGE".

(** The two handlers that close every [try] of the module:
    [except RequestException] logs [e.response.json()] when there is a
    response, which itself raises when that body is not JSON, and
    re-raises; [except Exception] logs and re-raises. *)
Definition reraise {A} (e : exn) : M A :=
  match e with
  | RequestException (Some None) => raise JSONDecodeError
  | _ => raise e
  end.

Definition log_enum_values (access_token enum_name : pyval) : M pyval :=
  try_with
    (_ <~ exchange (AgriwebbPost AGRIWEBB_API_BASE access_token
                                 (EnumValuesQuery enum_name)) ;;
     ret PNone)
    reraise.

(** Lines 107-110 on the decoded body. *)
Definition first_feature_id (body : pyval) : result pyval :=
  data <- getitem_str body "data" ;;
  features <- getitem_str data "mapFeatures" ;;
  match features with
  | PNone => Ok PNone
  | _ =>
      n <- py_len features ;;
      if 0 <? n
      then (first <- getitem_int features 0 ;; getitem_str first "id")
      else Ok PNone
  end.

Definition get_rain_gauge_sensor_id (access_token farm_id : pyval) : M pyval :=
  try_with
    (body <~ exchange (AgriwebbPost AGRIWEBB_API_BASE access_token
                                    (MapFeaturesQuery RAIN_GAUGE farm_id)) ;;
     lift (first_feature_id body))
    reraise.

(** The functions of two arguments that the module binds at top level.
    A call through a name that is bound neither here nor among the
    builtins is a [NameError] when it is reached. *)
Definition module_functions : list (string * (pyval -> pyval -> M pyval)) :=
  [ ("log_enum_values", log_enum_values);
    ("get_rain_gauge_sensor_id", get_rain_gauge_sensor_id) ].

Fixpoint resolve_global (name : string)
    (table : list (string * (pyval -> pyval -> M pyval)))
  : option (pyval -> pyval -> M pyval) :=
  match table with
  | [] => None
  | (n, f) :: rest => if String.eqb name n then Some f else resolve_global name rest
  end.

Definition call_global (callee : option (pyval -> pyval -> M pyval))
    (name : string) (a b : pyval) : M pyval :=
  match callee with
  | Some f => f a b
  | None => raise (NameError name)
  end.

Section Publisher.

(** [str(v)], used for an error entry without a [message]; the rendering
    of values as text is left open. *)
Variable py_str : pyval -> string.

(** What the name [create_rain_gauge] is bound to when line 141 runs. *)
Variable create_rain_gauge : option (pyval -> pyval -> M pyval).

(** Lines 138-146. *)
Definition resolve_sensor (access_token farm_id : pyval) : M pyval :=
  sensor_id <~ get_rain_gauge_sensor_id access_token farm_id ;;
  match sensor_id with
  | PNone =>
      _ <~ call_global create_rain_gauge "create_rain_gauge" access_token farm_id ;;
      sensor_id <~ get_rain_gauge_sensor_id access_token farm_id ;;
      match sensor_id with
      | PNone => raise (ValueError ("Rain gauge sensor ID not found for name: "
                                    ++ RAIN_GAUGE_NAME))
      | _ => ret sensor_id
      end
  | _ => ret sensor_id
  end.

(** [err.get('message', str(err))] *)
Definition error_message (err : pyval) : result pyval :=
  py_get err "message" (PStr (py_str err)).

Fixpoint error_messages (errors : list pyval) : result (list pyval) :=
  match errors with
  | [] => Ok []
  | err :: rest =>
      m <- error_message err ;;
      ms <- error_messages rest ;;
      Ok (m :: ms)
  end.

(** [', '.join(xs)] accepts [str] items only. *)
Fixpoint strings_of (xs : list pyval) : result (list string) :=
  match xs with
  | [] => Ok []
  | PStr s :: rest => (ss <- strings_of rest ;; Ok (s :: ss))
  | _ :: _ => Raise TypeError
  end.

(** Lines 187-194 on the decoded body. *)
Definition check_graphql_errors (body : pyval) : result pyval :=
  has_errors <- py_contains "errors" body ;;
  if has_errors then
    errors <- getitem_str body "errors" ;;
    items <- Tempest.py_iter errors ;;
    messages <- error_messages items ;;
    texts <- strings_of messages ;;
    Raise (ValueError ("GraphQL errors: " ++ join ", " texts))
  else Ok body.

(** Lines 148-203. *)
Definition publish (access_token farm_id sensor_id : pyval)
    (rainfall_inches : float) (time_ms : Z) : M pyval :=
  try_with
    (body <~ exchange (AgriwebbPost AGRIWEBB_API_BASE access_token
               (AddRainfallsMutation farm_id sensor_id rainfall_inches
                  RAIN_GAUGE_UNIT RAIN_GAUGE_MODE time_ms)) ;;
     lift (check_graphql_errors body))
    reraise.

Definition update_rainfall_with (access_token farm_id : pyval)
    (rainfall_inches : float) (time_ms : Z) : M pyval :=
  sensor_id <~ resolve_sensor access_token farm_id ;;
  publish access_token farm_id sensor_id rainfall_inches time_ms.

End Publisher.

(** [update_rainfall] as the module stands: [create_rain_gauge] is looked
    up among the module's own definitions. *)
Definition update_rainfall (py_str : pyval -> string)
    (access_token farm_id : pyval) (rainfall_inches : float) (time_ms : Z)
  : M pyval :=
  update_rainfall_with py_str
    (resolve_global "create_rain_gauge" module_functions)
    access_token farm_id rainfall_inches time_ms.

End AgriWebb.

(* ================================================================= *)
(** ** main.py *)

Module Main.

Definition TEMPEST_TOKEN_PARAMETER : string :=
  "bonesranch.agriwebb-rain.tempest.token".
Definition TEMPEST_STATION_ID_PARAMETER : string :=
  "bonesranch.agriwebb-rain.tempest.station_id".
Definition AGRIWEBB_ACCESS_TOKEN_PARAMETER : string :=
  "bonesranch.agriwebb-rain.agriwebb.access_token".
Definition AGRIWEBB_FARM_ID_PARAMETER : string :=
  "bonesranch.agriwebb-rain.agriwebb.farm_id".

Definition MM_TO_INCHES : float := (1 / 25.4)%float.

(** Line 92: [round(rainfall_mm * MM_TO_INCHES, 3)]. *)
Definition to_inches (rainfall_mm : pyval) : result float :=
  product <- mul_float rainfall_mm MM_TO_INCHES ;;
  Ok (py_round product 3).

Inductive status_t : Type := success | partial_success.

(** The dictionary the handler returns.  [rainfall_inches] and [date] are
    present on success only; [date] is the day before the invocation's UTC
    date, counted in days since 1970-01-01. *)
Record invocation_result : Type := {
  status : status_t;
  message : string;
  event_time : pyval;
  rainfall_mm : pyval;
  rainfall_inches : option float;
  date : option Z;
  observations_count : Z;
  agriwebb_updated : bool
}.

(** Lines 55-77: the event fields, the weather credentials and the fetch.
    Returns [event_time] and the fetcher's pair. *)
Definition fetch_stage (event : pyval) : M (pyval * (list pyval * pyval)) :=
  event_time <~ lift (py_get event "time" (PStr "N/A")) ;;
  event_source <~ lift (py_get event "source" (PStr "N/A")) ;;
  tempest_token <~ Utils.get_parameter_from_ssm TEMPEST_TOKEN_PARAMETER ;;
  tempest_station_id <~
    Utils.get_parameter_from_ssm TEMPEST_STATION_ID_PARAMETER ;;
  fetched <~ Tempest.get_yesterday_rainfall_data tempest_token
               tempest_station_id ;;
  ret (event_time, fetched).

Section Handler.

Variable py_str : pyval -> string.

(** Lines 88-142: publish, or skip when there is no value. *)
Definition relay_stage (event_time : pyval) (rainfall_observations : list pyval)
    (rainfall_mm : pyval) : M invocation_result :=
  match rainfall_mm with
  | PNone =>
      ret {| status := partial_success;
             message := "Retrieved observations but could not extract rainfall amount";
             event_time := event_time;
             rainfall_mm := PNone;
             rainfall_inches := None;
             date := None;
             observations_count := Z.of_nat (List.length rainfall_observations);
             agriwebb_updated := false |}
  | _ =>
      rainfall_inches <~ lift (to_inches rainfall_mm) ;;
      t <~ now ;;
      let yesterday := (t - Tempest.SECONDS_PER_DAY) / Tempest.SECONDS_PER_DAY in
      let time_ms := yesterday * Tempest.SECONDS_PER_DAY * 1000 in
      agriwebb_access_token <~
        Utils.get_parameter_from_ssm AGRIWEBB_ACCESS_TOKEN_PARAMETER ;;
      agriwebb_farm_id <~
        Utils.get_parameter_from_ssm AGRIWEBB_FARM_ID_PARAMETER ;;
      agriwebb_result <~ AgriWebb.update_rainfall py_str
                           agriwebb_access_token agriwebb_farm_id
                           rainfall_inches time_ms ;;
      ret {| status := success;
             message := "Successfully retrieved and updated rainfall data";
             event_time := event_time;
             rainfall_mm := rainfall_mm;
             rainfall_inches := Some rainfall_inches;
             date := Some yesterday;
             observations_count := Z.of_nat (List.length rainfall_observations);
             agriwebb_updated := true |}
  end.

(** The handler: the two stages with the extraction between them; the
    outer [except Exception] (lines 147-150) logs and re-raises. *)
Definition lambda_handler (event context : pyval) : M invocation_result :=
  try_with
    (gathered <~ fetch_stage event ;;
     let event_time := fst gathered in
     let rainfall_observations := fst (snd gathered) in
     let api_response := snd (snd gathered) in
     rainfall_mm <~ lift (Tempest.extract_precip_accum_local_yesterday
                            api_response) ;;
     relay_stage event_time rainfall_observations rainfall_mm)
    (fun e => raise e).

End Handler.

End Main.

(* ================================================================= *)
(** ** Vocabulary of the properties *)

Module Shape.

Import Tempest.

(** [v] is a mapping that has the key. *)
Definition has_key (v : pyval) : bool :=
  match v with
  | PDict d => mem KEY d
  | _ => false
  end.

(** The index under which [field_map] first names the key. *)
Definition first_named (field_map : dict) : option string :=
  option_map fst (find (fun kv => eq_str (snd kv) KEY) field_map).

(** [field_map] is usable for the array-encoded observation [row]: it is
    a mapping, it names the key, the index reads as an integer and that
    integer is a position of [row]. *)
Definition usable_field_map (api_response : dict) (row : list pyval) : bool :=
  match lookup "field_map" api_response with
  | Some (PDict field_map) =>
      match first_named field_map with
      | Some idx =>
          match int_of_str idx with
          | Ok i => (- Z.of_nat (List.length row) <=? i)
                    && (i <? Z.of_nat (List.length row))
          | Raise _ => false
          end
      | None => false
      end
  | _ => false
  end.

(** The latest observation carries the value: under the key when it is a
    mapping, through a usable [field_map] when it is an array. *)
Definition latest_has_value (api_response : dict) (latest_obs : pyval) : bool :=
  match latest_obs with
  | PDict _ => has_key latest_obs
  | PList row => usable_field_map api_response row
  | _ => false
  end.

(** [obs] is a non-empty list whose last element does not carry the
    value, and neither [summary] nor [obs_summary] has the key. *)
Definition obs_only_without_value (api_response : dict) : bool :=
  match lookup "obs" api_response with
  | Some (PList (first :: rest)) =>
      negb (latest_has_value api_response (last (first :: rest) PNone))
      && negb (has_key (dict_get api_response "summary" PNone))
      && negb (has_key (dict_get api_response "obs_summary" PNone))
  | _ => false
  end.

(** [needle] occurs in [text]. *)
Definition occurs_in (needle text : string) : Prop :=
  exists before after, text = before ++ needle ++ after.

(** An entry of a GraphQL error list: a mapping whose [message], when it
    has one, is a string. *)
Definition error_entry (err : pyval) : bool :=
  match err with
  | PDict d =>
      match lookup "message" d with
      | Some (PStr _) | None => true
      | Some _ => false
      end
  | _ => false
  end.

(** The string an entry contributes: its [message], or [str(err)]. *)
Definition error_string (py_str : pyval -> string) (err : pyval) : string :=
  match err with
  | PDict d =>
      match lookup "message" d with
      | Some (PStr s) => s
      | _ => py_str err
      end
  | _ => py_str err
  end.

(** The requests to the farm-management API among the events. *)
Definition is_agriwebb_request (e : event) : bool :=
  match e with
  | Sent (AgriwebbPost _ _ _) => true
  | _ => false
  end.

Definition is_publish (e : event) : bool :=
  match e with
  | Sent (AgriwebbPost _ _ (AddRainfallsMutation _ _ _ _ _ _)) => true
  | _ => false
  end.

Definition is_lookup (e : event) : bool :=
  match e with
  | Sent (AgriwebbPost _ _ (MapFeaturesQuery _ _)) => true
  | _ => false
  end.

(** What the normaliser keeps: a non-empty array or a mapping. *)
Definition kept (obs : pyval) : bool :=
  match obs with
  | PList (_ :: _) | PDict _ => true
  | _ => false
  end.

(** The raw observation inside a wrapper. *)
Definition observation_of (w : pyval) : pyval :=
  match w with
  | PDict d => dict_get d "observation" PNone
  | _ => PNone
  end.

(** Neither an array nor a mapping: the only observations warned about. *)
Definition foreign (obs : pyval) : Prop :=
  match obs with
  | PList _ | PDict _ => False
  | _ => True
  end.

Definition warning_index (w : log_record) : Z :=
  match w with
  | UnexpectedObservationFormat idx _ => idx
  | ErrorProcessingObservation idx _ => idx
  end.

(** The AgriWebb requests made so far. *)
Definition agriwebb_requests (w : world) : list event :=
  filter is_agriwebb_request (trace w).

(** A program that sends nothing to AgriWebb, however it ends. *)
Definition quiet {A} (m : M A) : Prop :=
  forall w, agriwebb_requests (snd (m w)) = agriwebb_requests w.

End Shape.

(* ================================================================= *)
(** ** Concrete responses and worlds used in the examples *)

Module Samples.

Import Tempest.

(** One map-encoded observation without the key, and the key at the top
    level of the response. *)
Definition obs_and_root : dict :=
  [ ("obs", PList [PDict [("air_temperature", PFloat 12.5)]]);
    (KEY, PFloat 2.5) ].

(** A parameter store that holds every parameter. *)
Definition store (name : string) : ssm_reply :=
  SsmResponse (PDict [("Parameter", PDict [("Name", PStr name);
                                           ("Value", PStr ("value-of-" ++ name))])]).

(** An invocation at 2023-11-14 22:13:20 UTC against servers that give
    [answers]. *)
Definition world_with (answers : list http_reply) : world :=
  {| clock := fun _ => 1700000000; ticks := 0; ssm := store;
     replies := answers; trace := [] |}.

Definition scheduled_event : pyval :=
  PDict [("source", PStr "aws.events"); ("time", PStr "2023-11-14T22:13:20Z")].

Definition show (v : pyval) : string := "<" ++ type_name v ++ ">".

(** A farm whose only rain gauge is called Backyard. *)
Definition backyard_gauge : pyval :=
  PDict [("data", PDict [("mapFeatures", PList [
    PDict [("id", PStr "sensor-backyard"); ("name", PStr "Backyard");
           ("type", PStr "RAIN_GAUGE"); ("farmId", PStr "farm-1")]])])].

(** A farm without a rain gauge. *)
Definition no_gauge : pyval :=
  PDict [("data", PDict [("mapFeatures", PList [])])].

(** Two raw observations, the first an empty array; no value anywhere. *)
Definition with_empty_row : pyval :=
  PDict [("obs", PList [PList []; PList [PInt 1699920000; PFloat 0.5]])].

(** A publish answer that carries three embedded errors. *)
Definition rejected : dict :=
  [ ("data", PNone);
    ("errors", PList [
       PDict [("message", PStr "Sensor not found")];
       PDict [("message", PStr "Invalid unit"); ("path", PList [PStr "addRainfalls"])];
       PDict [("code", PInt 7)] ]) ].

(** A publish answer with the key and nothing under it. *)
Definition empty_errors : dict :=
  [ ("data", PNone); ("errors", PList []) ].

Definition lookup_request : request :=
  AgriwebbPost AgriWebb.AGRIWEBB_API_BASE (PStr "token")
    (MapFeaturesQuery AgriWebb.RAIN_GAUGE (PStr "farm-1")).

End Samples.

(* ================================================================= *)
(** ** Vocabulary for the behaviour of each step *)

Module Behaviour.

Import Tempest Shape.

(** The field is passed over without incident: it is absent, falsy, or a
    mapping without the key. *)
Definition clean_miss (api_response : dict) (field : string) : bool :=
  match lookup field api_response with
  | None => true
  | Some (PDict s) => negb (mem KEY s)
  | Some v => negb (truthy v)
  end.

(** The [obs] step is passed over without incident: [obs] is absent or
    empty, or its last element is a mapping without the key, an array to
    which no [field_map] entry applies, or a scalar. *)
Definition obs_clean_miss (api_response : dict) : bool :=
  match lookup "obs" api_response with
  | None => true
  | Some (PList []) => true
  | Some (PList (first :: rest)) =>
      match last (first :: rest) PNone with
      | PDict o => negb (mem KEY o)
      | PList _ =>
          match lookup "field_map" api_response with
          | None => true
          | Some (PDict field_map) =>
              match first_named field_map with
              | None => true
              | Some _ => false
              end
          | Some _ => false
          end
      | _ => true
      end
  | Some _ => false
  end.

(** A value on which [if c and KEY in c: return c[KEY]] raises: it is
    truthy and either a number, or a string or list in which the key is
    found but which cannot be subscripted by it. *)
Definition shape_error (c : pyval) : bool :=
  truthy c &&
  match c with
  | PBool _ | PInt _ | PFloat _ => true
  | PStr s => str_contains KEY s
  | PList l => existsb (fun x => eq_str x KEY) l
  | PNone | PDict _ => false
  end.

(** The timestamp the normaliser pairs with a kept observation. *)
Definition timestamp_of (obs : pyval) : pyval :=
  match obs with
  | PList (first :: _) => first
  | PDict d =>
      match lookup "timestamp" d with
      | Some t => if truthy t then t else
          match lookup "time" d with
          | Some t' => if truthy t' then t' else dict_get d "ts" PNone
          | None => dict_get d "ts" PNone
          end
      | None =>
          match lookup "time" d with
          | Some t' => if truthy t' then t' else dict_get d "ts" PNone
          | None => dict_get d "ts" PNone
          end
      end
  | _ => PNone
  end.

Definition is_foreign (obs : pyval) : bool :=
  match obs with
  | PList _ | PDict _ => false
  | _ => true
  end.

Definition is_empty_array (obs : pyval) : bool :=
  match obs with
  | PList [] => true
  | _ => false
  end.

(** The warnings for the observations from position [idx] on. *)
Fixpoint warnings_from (idx : Z) (raw : list pyval) : list log_record :=
  match raw with
  | [] => []
  | obs :: rest =>
      if is_foreign obs
      then UnexpectedObservationFormat idx (type_name obs)
           :: warnings_from (idx + 1) rest
      else warnings_from (idx + 1) rest
  end.

(** A value without a length. *)
Definition unsized (v : pyval) : bool :=
  match v with
  | PNone | PBool _ | PInt _ | PFloat _ => true
  | PStr _ | PList _ | PDict _ => false
  end.

(** The request for the observations of the day before the one [t]
    falls in. *)
Definition tempest_request (station_id token : pyval) (t : Z) : request :=
  TempestObservations TEMPEST_API_BASE station_id token
    (yesterday_start t) (yesterday_start t + SECONDS_PER_DAY).

Definition lookup_of (access_token farm_id : pyval) : request :=
  AgriwebbPost AgriWebb.AGRIWEBB_API_BASE access_token
    (MapFeaturesQuery AgriWebb.RAIN_GAUGE farm_id).

Definition publish_of (access_token farm_id sensor_id : pyval)
    (rainfall_inches : float) (time_ms : Z) : request :=
  AgriwebbPost AgriWebb.AGRIWEBB_API_BASE access_token
    (AddRainfallsMutation farm_id sensor_id rainfall_inches
       AgriWebb.RAIN_GAUGE_UNIT AgriWebb.RAIN_GAUGE_MODE time_ms).

(** The world after the events [es], none of which consumed a reply. *)
Definition noted (w : world) (es : list event) : world :=
  {| clock := clock w; ticks := ticks w; ssm := ssm w; replies := replies w;
     trace := (trace w ++ es)%list |}.

(** The world after one more reading of the clock. *)
Definition ticked (w : world) : world :=
  {| clock := clock w; ticks := S (ticks w); ssm := ssm w;
     replies := replies w; trace := trace w |}.

(** What [requests] raises for a reply that is not a decodable success. *)
Definition transport_failure (pending : list http_reply) : option exn :=
  match pending with
  | Reply _ :: _ => None
  | ReplyNotJson :: _ => Some JSONDecodeError
  | ErrorStatus body :: _ => Some (RequestException (Some body))
  | NoReply :: _ | [] => Some (RequestException None)
  end.

Definition is_mapping (v : pyval) : bool :=
  match v with
  | PDict _ => true
  | _ => false
  end.

(** Text, list or mapping: what a float cannot be multiplied by. *)
Definition not_a_number (v : pyval) : bool :=
  match v with
  | PStr _ | PList _ | PDict _ => true
  | _ => false
  end.

(** [v] is held by the response at one of the places the extractor
    reads. *)
Definition stored_at (d : dict) (v : pyval) : Prop :=
  (exists s, lookup "summary" d = Some (PDict s) /\ lookup KEY s = Some v)
  \/ (exists s, lookup "obs_summary" d = Some (PDict s) /\ lookup KEY s = Some v)
  \/ (exists first rest o,
        lookup "obs" d = Some (PList (first :: rest)) /\
        last (first :: rest) PNone = PDict o /\ lookup KEY o = Some v)
  \/ (exists first rest row field_map idx i,
        lookup "obs" d = Some (PList (first :: rest)) /\
        last (first :: rest) PNone = PList row /\
        lookup "field_map" d = Some (PDict field_map) /\
        first_named field_map = Some idx /\
        int_of_str idx = Ok i /\ list_index row i = Ok v)
  \/ lookup KEY d = Some v.

(** Reading the index [idx] against [row] raises: it is not an integer
    literal, or it lies before the start of the row. *)
Definition index_raises (row : list pyval) (idx : string) : bool :=
  match int_of_str idx with
  | Raise _ => true
  | Ok i => i <? - Z.of_nat (List.length row)
  end.

End Behaviour.

(* ================================================================= *)
(** ** Whole invocations used in the examples *)

Module Scenarios.

Import Tempest Samples.

(** An inch of rain reported under [summary]. *)
Definition rainy_body : pyval :=
  PDict [("summary", PDict [(KEY, PFloat 25.4)]);
         ("obs", PList [PList [PInt 1699920000; PFloat 25.4]])].



(** The value arrives as text. *)
Definition text_body : pyval :=
  PDict [("summary", PDict [(KEY, PStr "25.4")])].

(** The body is a JSON array of observations that carry the key. *)
Definition array_body : pyval :=
  PList [PDict [("timestamp", PInt 1699920000); (KEY, PFloat 5.5)]].

(** A store in which nothing can be read. *)
Definition locked_out : world :=
  {| clock := fun _ => 1700000000; ticks := 0;
     ssm := fun _ => ClientError "AccessDeniedException" "denied";
     replies := [Reply rainy_body]; trace := [] |}.

End Scenarios.

(* ================================================================= *)
(** ** Properties of the extractor *)

Section Extractor.

Import Tempest Shape Samples.

Lemma truthy_dict_with (k : string) (d : dict) (v : pyval) :
  lookup k d = Some v -> truthy (PDict d) = true.
Proof. destruct d; [discriminate | reflexivity]. Qed.

Lemma probe_hit (s : dict) (v : pyval) :
  lookup KEY s = Some v -> probe (PDict s) = Ok (Some v).
Proof.
  intros H. unfold probe.
  rewrite (truthy_dict_with KEY s v H).
  unfold py_contains, mem, getitem_str. rewrite H. reflexivity.
Qed.

(** A probe returns a value only out of a mapping that has the key. *)
Lemma probe_sound (c v : pyval) :
  probe c = Ok (Some v) -> exists s, c = PDict s /\ lookup KEY s = Some v.
Proof.
  unfold probe. destruct (truthy c); [| discriminate].
  destruct c; simpl; try discriminate.
  - destruct (str_contains KEY s); discriminate.
  - destruct (existsb _ l); discriminate.
  - unfold mem. destruct (lookup KEY d) eqn:E; simpl; [| discriminate].
    intros [= <-]. now exists d.
Qed.

Lemma probe_miss (c : pyval) :
  has_key c = false -> probe c = Ok None \/ exists e, probe c = Raise e.
Proof.
  intros H. destruct (probe c) as [[v |] | e] eqn:E.
  - apply probe_sound in E as (s & -> & L). simpl in H. unfold mem in H.
    rewrite L in H. discriminate.
  - now left.
  - right. now exists e.
Qed.

Lemma list_index_bounds (l : list pyval) (i : Z) (v : pyval) :
  list_index l i = Ok v ->
  - Z.of_nat (List.length l) <= i < Z.of_nat (List.length l).
Proof.
  unfold list_index.
  destruct (i <? 0) eqn:Hneg;
    destruct ((0 <=? _) && (_ <? _)) eqn:Hin; try discriminate;
    intros _; apply andb_prop in Hin as [H1 H2]; lia.
Qed.

Lemma nth_error_last (l : list pyval) (d : pyval) :
  l <> [] -> nth_error l (List.length l - 1) = Some (last l d).
Proof.
  induction l as [| a [| b l'] IH]; intros Hne.
  - contradiction.
  - reflexivity.
  - specialize (IH ltac:(discriminate)).
    change (last (a :: b :: l') d) with (last (b :: l') d).
    rewrite <- IH. simpl. now rewrite Nat.sub_0_r.
Qed.

Lemma list_index_last (l : list pyval) :
  l <> [] -> list_index l (-1) = Ok (last l PNone).
Proof.
  intros Hne. unfold list_index.
  assert (Hlen : (0 < List.length l)%nat) by (destruct l; [contradiction | simpl; lia]).
  change (-1 <? 0) with true. cbv iota.
  replace ((0 <=? -1 + Z.of_nat (List.length l))
           && (-1 + Z.of_nat (List.length l) <? Z.of_nat (List.length l)))
    with true by (symmetry; apply andb_true_intro; split; lia).
  replace (Z.to_nat (-1 + Z.of_nat (List.length l)))
    with (List.length l - 1)%nat by lia.
  now rewrite (nth_error_last l PNone Hne).
Qed.

Lemma find_field_index_spec (field_map : dict) :
  find_field_index field_map =
  match first_named field_map with
  | Some idx => (i <- int_of_str idx ;; Ok (Some i))
  | None => Ok None
  end.
Proof.
  unfold first_named.
  induction field_map as [| [idx name] rest IH]; [reflexivity |].
  simpl. destruct (eq_str name KEY); [reflexivity | exact IH].
Qed.

(** The array branch returns a value only through a usable [field_map]. *)
Lemma probe_field_map_sound (d : dict) (row : list pyval) (v : pyval) :
  probe_field_map d row = Ok (Some v) -> usable_field_map d row = true.
Proof.
  unfold probe_field_map, usable_field_map, dict_get.
  destruct (0 <? Z.of_nat (List.length row)); [| discriminate].
  destruct (lookup "field_map" d) as [fm |]; [| discriminate].
  destruct (truthy fm); [| discriminate].
  destruct fm; simpl; try discriminate.
  rewrite find_field_index_spec.
  destruct (first_named d0) as [idx |]; [| discriminate].
  destruct (int_of_str idx) as [i | e]; simpl; [| discriminate].
  destruct (i <? Z.of_nat (List.length row)) eqn:Hlt; [| discriminate].
  destruct (list_index row i) as [value | e] eqn:Hix; simpl; [| discriminate].
  intros _. apply list_index_bounds in Hix.
  apply andb_true_intro. split; lia.
Qed.

(** The [obs] step returns a value only when [obs] is a non-empty list
    whose last element carries it. *)
Lemma probe_obs_sound (d : dict) (v : pyval) :
  probe_obs d = Ok (Some v) ->
  exists first rest,
    lookup "obs" d = Some (PList (first :: rest)) /\
    latest_has_value d (last (first :: rest) PNone) = true.
Proof.
  unfold probe_obs, dict_get.
  destruct (lookup "obs" d) as [obs |]; [| discriminate].
  destruct obs as [| b | z | f | s | l | o]; try discriminate.
  - destruct (truthy (PBool b)); discriminate.
  - destruct (truthy (PInt z)); discriminate.
  - destruct (truthy (PFloat f)); discriminate.
  - destruct (truthy (PStr s)); [| discriminate].
    cbn [py_len rbind getitem_int].
    destruct (0 <? _); [| discriminate].
    destruct ((0 <=? _) && (_ <? _)); discriminate.
  - destruct l as [| first rest]; [discriminate |].
    cbn [truthy py_len rbind getitem_int].
    destruct (0 <? _); [| discriminate].
    rewrite (list_index_last (first :: rest)) by discriminate.
    cbn [rbind]. intros H. exists first, rest. split; [reflexivity |].
    remember (last (first :: rest) PNone) as latest eqn:Hl. clear Hl.
    destruct latest as [| | | | | row | ld]; try discriminate.
    + now apply probe_field_map_sound with (v := v).
    + simpl in *. destruct (mem KEY ld); [reflexivity | discriminate].
  - destruct (truthy (PDict o)); [| discriminate].
    cbn [py_len rbind getitem_int].
    destruct (0 <? _); discriminate.
Qed.

(** Where a returned value comes from: one of the four places, in the
    order the source probes them. *)
Lemma extract_body_sources (d : dict) (v : pyval) :
  extract_body (PDict d) = Ok v ->
  v = PNone
  \/ has_key (dict_get d "summary" (PDict [])) = true
  \/ has_key (dict_get d "obs_summary" (PDict [])) = true
  \/ (exists first rest,
        lookup "obs" d = Some (PList (first :: rest)) /\
        latest_has_value d (last (first :: rest) PNone) = true)
  \/ mem KEY d = true.
Proof.
  unfold extract_body.
  destruct (probe (dict_get d "summary" (PDict []))) as [[v1 |] | e] eqn:E1;
    simpl; [| | discriminate].
  { intros _. right. left.
    apply probe_sound in E1 as (s & -> & L). simpl. unfold mem. now rewrite L. }
  destruct (probe (dict_get d "obs_summary" (PDict []))) as [[v2 |] | e] eqn:E2;
    simpl; [| | discriminate].
  { intros _. right. right. left.
    apply probe_sound in E2 as (s & -> & L). simpl. unfold mem. now rewrite L. }
  destruct (probe_obs d) as [[v3 |] | e] eqn:E3; simpl; [| | discriminate].
  { intros _. do 3 right. left. now apply probe_obs_sound with (v := v3). }
  destruct (mem KEY d) eqn:Hm.
  - intros _. now do 4 right.
  - intros [= <-]. now left.
Qed.

Lemma has_key_default (d : dict) (k : string) :
  has_key (dict_get d k (PDict [])) = has_key (dict_get d k PNone).
Proof. unfold dict_get. now destruct (lookup k d). Qed.

(** C1, as stated, fails: with [obs] present and non-empty, no key in its
    last element, no [summary] and no [obs_summary], a top-level
    [precip_accum_local_yesterday] is still returned (the root-level check
    of lines 156-160 runs after the [obs] step), so the extractor does not
    return [None]. *)
Lemma extract_top_level_key_is_returned :
  obs_only_without_value obs_and_root = true /\
  extract_precip_accum_local_yesterday (PDict obs_and_root) = Ok (PFloat 2.5) /\
  extract_precip_accum_local_yesterday (PDict obs_and_root) <> Ok PNone.
Proof.
  split; [reflexivity |]. split; [reflexivity |].
  vm_compute. discriminate.
Qed.

(** C1, amended: when [obs] is a non-empty list whose last element has no
    [precip_accum_local_yesterday] key (and, if it is an array, there is
    no usable [field_map] entry for the key), neither [summary] nor
    [obs_summary] contains the key, and the top-level mapping does not
    contain the key either, the extractor returns [None], whatever else
    the response holds. *)
Theorem extract_absent_without_root_key (api_response : dict) :
  obs_only_without_value api_response = true ->
  mem KEY api_response = false ->
  extract_precip_accum_local_yesterday (PDict api_response) = Ok PNone.
Proof.
  intros Hshape Hroot.
  unfold extract_precip_accum_local_yesterday, try_except.
  destruct (extract_body (PDict api_response)) as [v | e] eqn:E; [| reflexivity].
  unfold obs_only_without_value in Hshape.
  destruct (lookup "obs" api_response) as [[| | | | | [| first rest] |] |] eqn:Hobs;
    try discriminate.
  apply andb_prop in Hshape as [Hshape Hos].
  apply andb_prop in Hshape as [Hlatest Hs].
  apply negb_true_iff in Hlatest, Hs, Hos.
  apply extract_body_sources in E
    as [-> | [H | [H | [(f & r & Hobs' & H) | H]]]].
  - reflexivity.
  - rewrite has_key_default in H. congruence.
  - rewrite has_key_default in H. congruence.
  - rewrite Hobs in Hobs'. injection Hobs' as <- <-. congruence.
  - congruence.
Qed.

Lemma extract_absent_without_root_key_witness :
  let api_response :=
    [ ("obs", PList [PList [PInt 1700000000; PFloat 0.5]]);
      ("field_map", PDict [("0", PStr "timestamp"); ("7", PStr KEY)]);
      ("status", PDict [("status_code", PInt 0)]) ] in
  obs_only_without_value api_response = true /\
  mem KEY api_response = false /\
  extract_precip_accum_local_yesterday (PDict api_response) = Ok PNone.
Proof.
  intros api_response.
  split; [reflexivity |]. split; [reflexivity |].
  apply (extract_absent_without_root_key api_response); reflexivity.
Defined.

(** C3: when both the [summary] mapping and the [obs_summary] mapping
    contain [precip_accum_local_yesterday], the extractor returns the
    value stored under [summary]. *)
Theorem extract_summary_wins (api_response summary obs_summary : dict)
    (v v' : pyval) :
  lookup "summary" api_response = Some (PDict summary) ->
  lookup KEY summary = Some v ->
  lookup "obs_summary" api_response = Some (PDict obs_summary) ->
  lookup KEY obs_summary = Some v' ->
  extract_precip_accum_local_yesterday (PDict api_response) = Ok v.
Proof.
  intros Hs Hv _ _.
  unfold extract_precip_accum_local_yesterday, extract_body, dict_get.
  rewrite Hs, (probe_hit summary v Hv). reflexivity.
Qed.

Lemma extract_summary_wins_witness :
  let summary := [("pressure_trend", PStr "steady"); (KEY, PFloat 1.25)] in
  let obs_summary := [(KEY, PFloat 9.5)] in
  let api_response :=
    [("obs_summary", PDict obs_summary); ("summary", PDict summary)] in
  lookup "summary" api_response = Some (PDict summary) /\
  lookup KEY summary = Some (PFloat 1.25) /\
  lookup "obs_summary" api_response = Some (PDict obs_summary) /\
  lookup KEY obs_summary = Some (PFloat 9.5) /\
  extract_precip_accum_local_yesterday (PDict api_response) = Ok (PFloat 1.25).
Proof.
  intros summary obs_summary api_response.
  repeat (split; [reflexivity |]).
  apply (extract_summary_wins api_response summary obs_summary
           (PFloat 1.25) (PFloat 9.5)); reflexivity.
Defined.

(** A shape mismatch inside the body: [summary] is a number, so the
    membership test raises [TypeError]. *)
Example extract_body_raises :
  extract_body (PDict [("summary", PInt 7); (KEY, PFloat 2.5)]) = Raise TypeError.
Proof. reflexivity. Qed.

(** C7: on every input the extractor returns, a value or [None], and
    never raises: whatever the body of its [try] raises is turned into
    [None] by the handler. *)
Theorem extract_never_raises (api_response : pyval) :
  (exists v, extract_precip_accum_local_yesterday api_response = Ok v) /\
  (forall e, extract_body api_response = Raise e ->
             extract_precip_accum_local_yesterday api_response = Ok PNone).
Proof.
  unfold extract_precip_accum_local_yesterday, try_except.
  destruct (extract_body api_response) as [v | e].
  - split; [now exists v | discriminate].
  - split; [now exists PNone | reflexivity].
Qed.

End Extractor.

(* ================================================================= *)
(** ** Properties of the fetcher's normalisation *)

Section Normaliser.

Import Tempest Shape Samples.

Lemma normalize_one_spec (idx : Z) (obs : pyval) :
  exists wrappers warnings,
    normalize_one idx obs = Ok (wrappers, warnings) /\
    map observation_of wrappers = (if kept obs then [obs] else []) /\
    (forall w, In w warnings -> warning_index w = idx /\ foreign obs).
Proof.
  destruct obs as [| b | z | f | s | [| a l] | d];
    try (eexists; eexists; split; [reflexivity |];
         split; [reflexivity |];
         simpl; intros w [<- | []]; now split).
  - exists [], []. split; [reflexivity |]. split; [reflexivity |]. intros w [].
  - exists [wrapper a (PList (a :: l))], [].
    split; [reflexivity |]. split; [reflexivity |]. intros w [].
  - eexists; exists []. split; [reflexivity |]. split; [reflexivity |]. intros w [].
Qed.

Lemma normalize_from_spec (raw : list pyval) :
  forall idx,
  exists wrappers warnings,
    normalize_from idx raw = Ok (wrappers, warnings) /\
    map observation_of wrappers = filter kept raw /\
    (forall w, In w warnings ->
       exists k obs, warning_index w = idx + Z.of_nat k /\
                     nth_error raw k = Some obs /\ foreign obs).
Proof.
  induction raw as [| obs rest IH]; intros idx.
  - exists [], []. split; [reflexivity |]. split; [reflexivity |]. intros w [].
  - destruct (normalize_one_spec idx obs) as (ws1 & wn1 & E1 & M1 & W1).
    destruct (IH (idx + 1)) as (ws2 & wn2 & E2 & M2 & W2).
    exists (ws1 ++ ws2)%list, (wn1 ++ wn2)%list.
    split; [| split].
    + cbn [normalize_from]. rewrite E1, E2. reflexivity.
    + rewrite map_app, M1, M2. cbn [filter]. now destruct (kept obs).
    + intros w Hw. apply in_app_or in Hw as [Hw | Hw].
      * destruct (W1 w Hw) as [Hi Hf]. exists 0%nat, obs.
        split; [simpl; lia |]. now split.
      * destruct (W2 w Hw) as (k & o & Hi & Hn & Hf). exists (S k), o.
        split; [lia |]. now split.
Qed.

Lemma filter_kept_shorter (raw : list pyval) :
  (List.length (filter kept raw) <= List.length raw)%nat /\
  (In (PList []) raw -> (List.length (filter kept raw) < List.length raw)%nat).
Proof.
  induction raw as [| obs rest [IHle IHlt]]; [split; [simpl; lia | intros []] |].
  cbn [filter]. destruct (kept obs) eqn:K; cbn [List.length]; split; try lia.
  intros [-> | Hin]; [discriminate | specialize (IHlt Hin); lia].
Qed.

(** C10: every raw observation that is an empty array is dropped from the
    normalised list without a warning being logged for it, so the
    normalised list, and with it the reported [observations_count], can
    be strictly shorter than the raw [obs] list. *)
Theorem normalize_drops_empty_arrays (data : pyval) (raw : list pyval) :
  observations_of data = PList raw ->
  exists wrappers warnings,
    normalize data = Ok (wrappers, warnings) /\
    map observation_of wrappers = filter kept raw /\
    ~ In (PList []) (map observation_of wrappers) /\
    (forall k w, nth_error raw k = Some (PList []) -> In w warnings ->
                 warning_index w <> Z.of_nat k) /\
    (In (PList []) raw -> (List.length wrappers < List.length raw)%nat) /\
    (exists r w',
       Main.lambda_handler show scheduled_event PNone
         (world_with [Reply with_empty_row]) = (Ok r, w') /\
       Main.observations_count r = 1 /\
       observations_of with_empty_row
       = PList [PList []; PList [PInt 1699920000; PFloat 0.5]]).
Proof.
  intros Hobs.
  destruct (normalize_from_spec raw 0) as (ws & wn & E & Hmap & Hwarn).
  exists ws, wn. unfold normalize. rewrite Hobs. cbn [py_len py_iter rbind].
  split; [exact E |]. split; [exact Hmap |]. split; [| split; [| split]].
  - rewrite Hmap. intros Hin. apply filter_In in Hin as [_ K]. discriminate.
  - intros k w Hk Hw Heq.
    destruct (Hwarn w Hw) as (k' & o & Hi & Hn & Hf).
    assert (k' = k) by lia. subst k'. rewrite Hk in Hn.
    injection Hn as <-. exact Hf.
  - intros Hin. rewrite <- (length_map observation_of ws), Hmap.
    now apply filter_kept_shorter.
  - eexists. eexists. split; [vm_compute; reflexivity |].
    split; reflexivity.
Qed.

Lemma normalize_drops_empty_arrays_witness :
  observations_of with_empty_row
  = PList [PList []; PList [PInt 1699920000; PFloat 0.5]] /\
  exists wrappers warnings,
    normalize with_empty_row = Ok (wrappers, warnings) /\
    (List.length wrappers < 2)%nat.
Proof.
  split; [reflexivity |].
  destruct (normalize_drops_empty_arrays with_empty_row
              [PList []; PList [PInt 1699920000; PFloat 0.5]] eq_refl)
    as (ws & wn & E & _ & _ & _ & Hlt & _).
  exists ws, wn. split; [exact E |]. apply Hlt. now left.
Defined.

End Normaliser.

(* ================================================================= *)
(** ** Running programs of [M] *)

Section Runs.

Context {A B : Type}.

Lemma bind_ok (m : M A) (k : A -> M B) (w w1 : world) (a : A) :
  m w = (Ok a, w1) -> bind m k w = k a w1.
Proof. intros H. unfold bind. now rewrite H. Qed.

Lemma bind_raise (m : M A) (k : A -> M B) (w w1 : world) (e : exn) :
  m w = (Raise e, w1) -> bind m k w = (Raise e, w1).
Proof. intros H. unfold bind. now rewrite H. Qed.

Lemma try_with_ok (m : M A) (h : exn -> M A) (w w1 : world) (a : A) :
  m w = (Ok a, w1) -> try_with m h w = (Ok a, w1).
Proof. intros H. unfold try_with. now rewrite H. Qed.

Lemma try_with_raise (m : M A) (h : exn -> M A) (w w1 : world) (e : exn) :
  m w = (Raise e, w1) -> try_with m h w = h e w1.
Proof. intros H. unfold try_with. now rewrite H. Qed.

End Runs.

Lemma exchange_reply (r : request) (w : world) (body : pyval)
    (rest : list http_reply) :
  replies w = Reply body :: rest ->
  exchange r w = (Ok body, answered w r rest).
Proof.
  intros H. unfold exchange, bind, send. rewrite H. reflexivity.
Qed.

(* ================================================================= *)
(** ** Properties of the sensor resolver and the publisher *)

Section Publishing.

Import AgriWebb Shape Samples.

Variable py_str : pyval -> string.

Lemma reraise_raises {A} (e : exn) (w : world) :
  exists e', @reraise A e w = (Raise e', w).
Proof.
  destruct e as [| | | | | | | [[b |] |] |];
    try (eexists; reflexivity).
Qed.

Lemma reraise_value_error {A} (msg : string) (w : world) :
  @reraise A (ValueError msg) w = (Raise (ValueError msg), w).
Proof. reflexivity. Qed.

(** *** Text *)

Lemma append_assoc (a b c : string) : (a ++ b) ++ c = a ++ (b ++ c).
Proof. induction a as [| x a IH]; [reflexivity | simpl; now rewrite IH]. Qed.

Lemma append_empty (a : string) : a ++ "" = a.
Proof. induction a as [| x a IH]; [reflexivity | simpl; now rewrite IH]. Qed.

Lemma occurs_in_after (p needle text : string) :
  occurs_in needle text -> occurs_in needle (p ++ text).
Proof.
  intros (b & a & ->). exists (p ++ b), a. now rewrite append_assoc.
Qed.

Lemma occurs_in_before (needle text q : string) :
  occurs_in needle text -> occurs_in needle (text ++ q).
Proof.
  intros (b & a & ->). exists b, (a ++ q). now rewrite !append_assoc.
Qed.

Lemma occurs_in_self (s : string) : occurs_in s s.
Proof. exists "", "". simpl. now rewrite append_empty. Qed.

Lemma occurs_in_join (sep s : string) (parts : list string) :
  In s parts -> occurs_in s (join sep parts).
Proof.
  induction parts as [| p [| q rest] IH]; intros Hin.
  - contradiction.
  - destruct Hin as [-> | []]. apply occurs_in_self.
  - change (join sep (p :: q :: rest)) with (p ++ sep ++ join sep (q :: rest)).
    destruct Hin as [-> | Hin].
    + apply occurs_in_before, occurs_in_self.
    + apply occurs_in_after, occurs_in_after, IH, Hin.
Qed.

(** *** The embedded error list *)

Lemma error_message_entry (err : pyval) :
  error_entry err = true ->
  error_message py_str err = Ok (PStr (error_string py_str err)).
Proof.
  destruct err as [| | | | | | d]; try discriminate.
  unfold error_entry, error_message, error_string, py_get, dict_get.
  destruct (lookup "message" d) as [[| | | | s | |] |]; try discriminate;
    reflexivity.
Qed.

Lemma error_messages_entries (errors : list pyval) :
  forallb error_entry errors = true ->
  error_messages py_str errors
  = Ok (map (fun err => PStr (error_string py_str err)) errors).
Proof.
  induction errors as [| err rest IH]; [reflexivity |].
  cbn [forallb]. intros H. apply andb_prop in H as [He Hr].
  cbn [error_messages]. rewrite (error_message_entry err He), (IH Hr).
  reflexivity.
Qed.

Lemma strings_of_strs (f : pyval -> string) (xs : list pyval) :
  strings_of (map (fun x => PStr (f x)) xs) = Ok (map f xs).
Proof.
  induction xs as [| x rest IH]; [reflexivity |].
  cbn [map strings_of]. rewrite IH. reflexivity.
Qed.

(** With well-formed entries the check raises the aggregated error. *)
Lemma check_graphql_errors_aggregates (body : dict) (errors : list pyval) :
  lookup "errors" body = Some (PList errors) ->
  forallb error_entry errors = true ->
  check_graphql_errors py_str (PDict body)
  = Raise (ValueError ("GraphQL errors: "
                       ++ join ", " (map (error_string py_str) errors))).
Proof.
  intros Hl He. unfold check_graphql_errors, py_contains, mem, getitem_str.
  rewrite Hl. cbn [rbind Tempest.py_iter].
  rewrite (error_messages_entries errors He). cbn [rbind].
  rewrite strings_of_strs. reflexivity.
Qed.

(** Once the key is there, every path of the check ends in a [raise]. *)
Lemma check_graphql_errors_raises (body : pyval) :
  py_contains "errors" body = Ok true ->
  exists e, check_graphql_errors py_str body = Raise e.
Proof.
  intros H. unfold check_graphql_errors. rewrite H. cbn [rbind].
  destruct (getitem_str body "errors") as [errors | e];
    [| eexists; reflexivity].
  cbn [rbind]. destruct (Tempest.py_iter errors) as [items | e];
    [| eexists; reflexivity].
  cbn [rbind]. destruct (error_messages py_str items) as [messages | e];
    [| eexists; reflexivity].
  cbn [rbind]. destruct (strings_of messages) as [texts | e];
    eexists; reflexivity.
Qed.

(** *** The publish step on an answered request *)

Lemma publish_answered (access_token farm_id sensor_id : pyval)
    (rainfall_inches : float) (time_ms : Z) (w : world) (body : pyval)
    (rest : list http_reply) :
  replies w = Reply body :: rest ->
  exists w',
    publish py_str access_token farm_id sensor_id rainfall_inches time_ms w
    = match check_graphql_errors py_str body with
      | Ok v => (Ok v, w')
      | Raise e => reraise e w'
      end.
Proof.
  intros H. eexists. unfold publish, try_with.
  rewrite (bind_ok _ _ _ _ _ (exchange_reply _ w body rest H)).
  unfold lift. destruct (check_graphql_errors py_str body); reflexivity.
Qed.

(** *** Claims about the publisher *)

(** C5: when the sensor is resolved and the publish request is answered
    with a body whose [errors] list is non-empty (entries being GraphQL
    error objects), the publish operation fails with one [ValueError]
    whose message contains the string of every entry of the list. *)
Theorem publish_aggregates_errors (access_token farm_id sensor_id : pyval)
    (rainfall_inches : float) (time_ms : Z) (w w1 : world)
    (body : dict) (errors : list pyval) (rest : list http_reply) :
  resolve_sensor (resolve_global "create_rain_gauge" module_functions)
    access_token farm_id w = (Ok sensor_id, w1) ->
  replies w1 = Reply (PDict body) :: rest ->
  lookup "errors" body = Some (PList errors) ->
  errors <> [] ->
  forallb error_entry errors = true ->
  exists msg w2,
    update_rainfall py_str access_token farm_id rainfall_inches time_ms w
    = (Raise (ValueError msg), w2) /\
    forall err, In err errors -> occurs_in (error_string py_str err) msg.
Proof.
  intros Hres Hrep Hl _ He.
  destruct (publish_answered access_token farm_id sensor_id rainfall_inches
              time_ms w1 (PDict body) rest Hrep) as (w2 & Hpub).
  rewrite (check_graphql_errors_aggregates body errors Hl He) in Hpub.
  rewrite reraise_value_error in Hpub.
  eexists. exists w2. split.
  - unfold update_rainfall, update_rainfall_with.
    rewrite (bind_ok _ _ _ _ _ Hres). exact Hpub.
  - intros err Hin. apply occurs_in_after, occurs_in_join.
    now apply in_map.
Qed.

(** C9: when the sensor is resolved and the publish request is answered
    with a body that has the key [errors], the publish operation fails;
    with an empty list the failure is the [ValueError] whose message is
    the bare prefix, with no error string in it. *)
Theorem publish_fails_on_errors_key (access_token farm_id sensor_id : pyval)
    (rainfall_inches : float) (time_ms : Z) (w w1 : world)
    (body : dict) (rest : list http_reply) :
  resolve_sensor (resolve_global "create_rain_gauge" module_functions)
    access_token farm_id w = (Ok sensor_id, w1) ->
  replies w1 = Reply (PDict body) :: rest ->
  mem "errors" body = true ->
  (exists e w2,
     update_rainfall py_str access_token farm_id rainfall_inches time_ms w
     = (Raise e, w2)) /\
  (lookup "errors" body = Some (PList []) ->
   exists w2,
     update_rainfall py_str access_token farm_id rainfall_inches time_ms w
     = (Raise (ValueError "GraphQL errors: "), w2)).
Proof.
  intros Hres Hrep Hmem.
  destruct (publish_answered access_token farm_id sensor_id rainfall_inches
              time_ms w1 (PDict body) rest Hrep) as (w2 & Hpub).
  unfold update_rainfall, update_rainfall_with.
  rewrite (bind_ok _ _ _ _ _ Hres). split.
  - destruct (check_graphql_errors_raises (PDict body)) as (e & He).
    { simpl. now rewrite Hmem. }
    rewrite He in Hpub. destruct (@reraise_raises pyval e w2) as (e' & He').
    exists e', w2. now rewrite Hpub.
  - intros Hl. exists w2. rewrite Hpub.
    now rewrite (check_graphql_errors_aggregates body [] Hl eq_refl).
Qed.

End Publishing.

Lemma publish_aggregates_errors_witness :
  let w := Samples.world_with
             [Reply Samples.backyard_gauge; Reply (PDict Samples.rejected)] in
  let w1 := answered w Samples.lookup_request [Reply (PDict Samples.rejected)] in
  let errors := [ PDict [("message", PStr "Sensor not found")];
                  PDict [("message", PStr "Invalid unit");
                         ("path", PList [PStr "addRainfalls"])];
                  PDict [("code", PInt 7)] ] in
  AgriWebb.resolve_sensor
    (AgriWebb.resolve_global "create_rain_gauge" AgriWebb.module_functions)
    (PStr "token") (PStr "farm-1") w = (Ok (PStr "sensor-backyard"), w1) /\
  replies w1 = [Reply (PDict Samples.rejected)] /\
  lookup "errors" Samples.rejected = Some (PList errors) /\
  errors <> [] /\
  forallb Shape.error_entry errors = true /\
  exists msg w2,
    AgriWebb.update_rainfall Samples.show (PStr "token") (PStr "farm-1")
      0.5%float 1699920000000 w = (Raise (ValueError msg), w2) /\
    forall err, In err errors ->
                Shape.occurs_in (Shape.error_string Samples.show err) msg.
Proof.
  intros w w1 errors.
  split; [reflexivity |]. split; [reflexivity |]. split; [reflexivity |].
  split; [discriminate |]. split; [reflexivity |].
  apply (publish_aggregates_errors Samples.show (PStr "token") (PStr "farm-1")
           (PStr "sensor-backyard") 0.5%float 1699920000000 w w1
           Samples.rejected errors []);
    [reflexivity | reflexivity | reflexivity | discriminate | reflexivity].
Defined.

Lemma publish_fails_on_errors_key_witness :
  let w := Samples.world_with
             [Reply Samples.backyard_gauge; Reply (PDict Samples.empty_errors)] in
  let w1 := answered w Samples.lookup_request
              [Reply (PDict Samples.empty_errors)] in
  AgriWebb.resolve_sensor
    (AgriWebb.resolve_global "create_rain_gauge" AgriWebb.module_functions)
    (PStr "token") (PStr "farm-1") w = (Ok (PStr "sensor-backyard"), w1) /\
  replies w1 = [Reply (PDict Samples.empty_errors)] /\
  mem "errors" Samples.empty_errors = true /\
  exists w2,
    AgriWebb.update_rainfall Samples.show (PStr "token") (PStr "farm-1")
      0.5%float 1699920000000 w
    = (Raise (ValueError "GraphQL errors: "), w2).
Proof.
  intros w w1.
  split; [reflexivity |]. split; [reflexivity |]. split; [reflexivity |].
  apply (publish_fails_on_errors_key Samples.show (PStr "token") (PStr "farm-1")
           (PStr "sensor-backyard") 0.5%float 1699920000000 w w1
           Samples.empty_errors []);
    reflexivity.
Defined.

(* ================================================================= *)
(** ** Properties of the sensor resolver *)

Section Resolver.

Import AgriWebb Shape Samples.

(** The identifier returned is the [id] of the first feature of the
    answer; no other field of the feature is read. *)
Lemma first_feature_id_first (body data first : dict) (rest : list pyval) :
  lookup "data" body = Some (PDict data) ->
  lookup "mapFeatures" data = Some (PList (PDict first :: rest)) ->
  first_feature_id (PDict body) = getitem_str (PDict first) "id".
Proof.
  intros Hd Hf. unfold first_feature_id.
  cbn [getitem_str]. rewrite Hd. cbn [rbind getitem_str]. rewrite Hf.
  reflexivity.
Qed.

(** C2, on the code: the lookup sends a filter on the type tag and the
    farm only, and returns the first feature of the answer; for a farm
    whose rain gauge is called Backyard it returns that gauge's
    identifier although its name is not [RAIN_GAUGE_NAME]. *)
Theorem sensor_lookup_ignores_name :
  let run := get_rain_gauge_sensor_id (PStr "token") (PStr "farm-1")
               (world_with [Reply backyard_gauge]) in
  fst run = Ok (PStr "sensor-backyard") /\
  trace (snd run) = [Sent (AgriwebbPost AGRIWEBB_API_BASE (PStr "token")
                             (MapFeaturesQuery RAIN_GAUGE (PStr "farm-1")))] /\
  eq_str (PStr "Backyard") RAIN_GAUGE_NAME = false.
Proof. repeat split. Qed.

(** When the first lookup finds nothing, the call of the unbound name
    [create_rain_gauge] ends the operation, whatever the servers would
    have answered next. *)
Lemma update_rainfall_unbound_creation (py_str : pyval -> string)
    (access_token farm_id : pyval) (rainfall_inches : float) (time_ms : Z)
    (w w1 : world) :
  get_rain_gauge_sensor_id access_token farm_id w = (Ok PNone, w1) ->
  update_rainfall py_str access_token farm_id rainfall_inches time_ms w
  = (Raise (NameError "create_rain_gauge"), w1).
Proof.
  intros H. unfold update_rainfall, update_rainfall_with, resolve_sensor, bind.
  rewrite H. reflexivity.
Qed.

(** The resolution as lines 138-146 read once the name is bound: one
    creation between two lookups, and a [ValueError] when the second
    lookup finds nothing either. *)
Lemma resolve_sensor_after_creation
    (create : pyval -> pyval -> M pyval) (access_token farm_id created : pyval)
    (w w1 w2 w3 : world) (found : pyval) :
  get_rain_gauge_sensor_id access_token farm_id w = (Ok PNone, w1) ->
  create access_token farm_id w1 = (Ok created, w2) ->
  get_rain_gauge_sensor_id access_token farm_id w2 = (Ok found, w3) ->
  resolve_sensor (Some create) access_token farm_id w
  = match found with
    | PNone => (Raise (ValueError ("Rain gauge sensor ID not found for name: "
                                   ++ RAIN_GAUGE_NAME)), w3)
    | _ => (Ok found, w3)
    end.
Proof.
  intros H1 Hc H2. unfold resolve_sensor.
  rewrite (bind_ok _ _ _ _ _ H1). cbn [call_global].
  rewrite (bind_ok _ _ _ _ _ Hc), (bind_ok _ _ _ _ _ H2).
  now destruct found.
Qed.

(** C4, on the code: for a farm without a rain gauge the first lookup
    finds nothing; the creation is then never carried out, because
    [create_rain_gauge] is bound nowhere in the module, and the operation
    ends with a [NameError] after that single lookup: no second lookup
    and no configuration error. *)
Theorem update_rainfall_creation_unbound :
  let run := update_rainfall show (PStr "token") (PStr "farm-1") 0.5%float
               1699920000000
               (world_with [Reply no_gauge; Reply no_gauge; Reply no_gauge]) in
  resolve_global "create_rain_gauge" module_functions = None /\
  fst run = Raise (NameError "create_rain_gauge") /\
  trace (snd run) = [Sent lookup_request] /\
  replies (snd run) = [Reply no_gauge; Reply no_gauge].
Proof. repeat split. Qed.

End Resolver.

(* ================================================================= *)
(** ** Properties of the orchestrator *)

Section Orchestrator.

Import Main Shape Samples.

(** *** Programs that leave AgriWebb alone *)

Lemma quiet_ret {A} (a : A) : quiet (ret a).
Proof. intros w. reflexivity. Qed.

Lemma quiet_raise {A} (e : exn) : quiet (@raise A e).
Proof. intros w. reflexivity. Qed.

Lemma quiet_lift {A} (r : result A) : quiet (lift r).
Proof. intros w. reflexivity. Qed.

Lemma quiet_now : quiet now.
Proof. intros w. reflexivity. Qed.

Lemma quiet_bind {A B} (m : M A) (k : A -> M B) :
  quiet m -> (forall a, quiet (k a)) -> quiet (bind m k).
Proof.
  intros Hm Hk w. unfold bind. specialize (Hm w).
  destruct (m w) as [[a | e] w1]; simpl in *.
  - now rewrite (Hk a w1).
  - exact Hm.
Qed.

Lemma quiet_try_with {A} (m : M A) (h : exn -> M A) :
  quiet m -> (forall e, quiet (h e)) -> quiet (try_with m h).
Proof.
  intros Hm Hh w. unfold try_with. specialize (Hm w).
  destruct (m w) as [[a | e] w1]; simpl in *.
  - exact Hm.
  - now rewrite (Hh e w1).
Qed.

Lemma quiet_emit (e : event) : is_agriwebb_request e = false -> quiet (emit e).
Proof.
  intros He w. unfold agriwebb_requests, emit. cbn [snd trace].
  rewrite filter_app. cbn [filter]. rewrite He. apply app_nil_r.
Qed.

Lemma quiet_read_parameter (name : string) : quiet (read_parameter name).
Proof.
  intros w. unfold agriwebb_requests. simpl.
  rewrite filter_app. apply app_nil_r.
Qed.

Lemma quiet_send (r : request) :
  is_agriwebb_request (Sent r) = false -> quiet (send r).
Proof.
  intros Hr w. unfold agriwebb_requests, send.
  destruct (replies w); cbn [snd trace]; rewrite filter_app; cbn [filter];
    rewrite Hr; apply app_nil_r.
Qed.

Lemma quiet_exchange (r : request) :
  is_agriwebb_request (Sent r) = false -> quiet (exchange r).
Proof.
  intros Hr. apply quiet_bind; [now apply quiet_send |].
  intros [body | | body |]; auto using quiet_ret, quiet_raise.
Qed.

Lemma quiet_emit_all (ws : list log_record) : quiet (Tempest.emit_all ws).
Proof.
  induction ws as [| w rest IH]; [apply quiet_ret |].
  apply quiet_bind; [now apply quiet_emit | intros _; exact IH].
Qed.

Lemma quiet_get_parameter (name : string) :
  quiet (Utils.get_parameter_from_ssm name).
Proof.
  apply quiet_bind; [apply quiet_read_parameter |].
  intros [response | code text | text]; cbn beta iota.
  - apply quiet_lift.
  - destruct (String.eqb code "ParameterNotFound"); [apply quiet_raise |].
    destruct (String.eqb code "AccessDeniedException"); apply quiet_raise.
  - apply quiet_raise.
Qed.

Lemma quiet_fetch (token station_id : pyval) :
  quiet (Tempest.get_yesterday_rainfall_data token station_id).
Proof.
  apply quiet_bind; [apply quiet_now |]. intros t.
  apply quiet_try_with; [| intros e; apply quiet_raise].
  apply quiet_bind; [now apply quiet_exchange |]. intros data.
  apply quiet_bind; [apply quiet_lift |]. intros out.
  apply quiet_bind; [apply quiet_emit_all |]. intros _. apply quiet_ret.
Qed.

Lemma quiet_fetch_stage (event : pyval) : quiet (fetch_stage event).
Proof.
  apply quiet_bind; [apply quiet_lift |]. intros event_time.
  apply quiet_bind; [apply quiet_lift |]. intros event_source.
  apply quiet_bind; [apply quiet_get_parameter |]. intros token.
  apply quiet_bind; [apply quiet_get_parameter |]. intros station_id.
  apply quiet_bind; [apply quiet_fetch |]. intros fetched. apply quiet_ret.
Qed.

(** *** Claims *)

(** C6: when the fetch has gone through and the extractor returns [None],
    the handler returns a record with status [partial_success],
    [agriwebb_updated] false and [rainfall_mm] [None], in the world the
    fetch left: nothing was sent to AgriWebb, so no publish took place. *)
Theorem absent_rainfall_skips_publish (py_str : pyval -> string)
    (event context event_time : pyval) (observations : list pyval)
    (api_response : pyval) (w w1 : world) :
  fetch_stage event w = (Ok (event_time, (observations, api_response)), w1) ->
  Tempest.extract_precip_accum_local_yesterday api_response = Ok PNone ->
  exists r,
    lambda_handler py_str event context w = (Ok r, w1) /\
    status r = partial_success /\
    agriwebb_updated r = false /\
    rainfall_mm r = PNone /\
    observations_count r = Z.of_nat (List.length observations) /\
    agriwebb_requests w1 = agriwebb_requests w /\
    filter is_publish (trace w1) = filter is_publish (trace w).
Proof.
  intros Hfetch Hnone.
  assert (Hrun : lambda_handler py_str event context w
                 = (Ok {| status := partial_success;
                          message := "Retrieved observations but could not extract rainfall amount";
                          event_time := event_time;
                          rainfall_mm := PNone;
                          rainfall_inches := None;
                          date := None;
                          observations_count := Z.of_nat (List.length observations);
                          agriwebb_updated := false |}, w1)).
  { unfold lambda_handler. apply try_with_ok.
    rewrite (bind_ok _ _ _ _ _ Hfetch). cbn [fst snd].
    rewrite Hnone. reflexivity. }
  pose proof (quiet_fetch_stage event w) as Hq. rewrite Hfetch in Hq.
  cbn [snd] in Hq.
  eexists. split; [exact Hrun |]. do 4 (split; [reflexivity |]).
  split; [exact Hq |].
  unfold agriwebb_requests in Hq.
  assert (Hsub : forall l, filter is_publish l
                           = filter is_publish (filter is_agriwebb_request l)).
  { induction l as [| e l IH]; [reflexivity |].
    cbn [filter].
    destruct e as [n | [b s t t1 t2 | u k [q | ty f | f sid v un mo ti]] | lw];
      cbn [is_publish is_agriwebb_request filter]; rewrite <- ?IH;
      reflexivity. }
  now rewrite (Hsub (trace w1)), (Hsub (trace w)), Hq.
Qed.

Lemma absent_rainfall_skips_publish_witness :
  let w := world_with [Reply with_empty_row] in
  exists w1 r,
    fetch_stage scheduled_event w
    = (Ok (PStr "2023-11-14T22:13:20Z",
           ([Tempest.wrapper (PInt 1699920000)
               (PList [PInt 1699920000; PFloat 0.5])], with_empty_row)), w1) /\
    Tempest.extract_precip_accum_local_yesterday with_empty_row = Ok PNone /\
    lambda_handler show scheduled_event PNone w = (Ok r, w1) /\
    status r = partial_success /\
    agriwebb_requests w1 = [].
Proof.
  intros w. eexists.
  destruct (absent_rainfall_skips_publish show scheduled_event PNone
              (PStr "2023-11-14T22:13:20Z")
              [Tempest.wrapper (PInt 1699920000)
                 (PList [PInt 1699920000; PFloat 0.5])]
              with_empty_row w _ eq_refl eq_refl)
    as (r & Hrun & Hst & _ & _ & _ & Hq & _).
  exists r. split; [reflexivity |]. split; [reflexivity |].
  split; [exact Hrun |]. split; [exact Hst |]. exact Hq.
Defined.

(** The product before rounding is below one: the rounding is what
    brings 25.4 mm to one inch. *)
Example product_before_rounding :
  mul_float (PFloat 25.4) MM_TO_INCHES = Ok 0x1.fffffffffffffp-1%float.
Proof. reflexivity. Qed.

(** C8: the conversion (multiply by [1 / 25.4], round to 3 decimals) maps
    25.4 mm to exactly 1.0 inch and 0 mm to exactly 0.0 inches. *)
Theorem conversion_of_25_4_and_0 :
  to_inches (PFloat 25.4) = Ok 1%float /\
  to_inches (PFloat 0) = Ok 0%float /\
  to_inches (PInt 0) = Ok 0%float.
Proof. repeat split. Qed.

End Orchestrator.

(* ================================================================= *)
(** ** The extractor, place by place *)

Section ExtractorBehaviour.

Import Tempest Shape Behaviour Samples.

Lemma probe_clean_miss (d : dict) (field : string) :
  clean_miss d field = true ->
  probe (dict_get d field (PDict [])) = Ok None.
Proof.
  unfold clean_miss, dict_get, probe.
  destruct (lookup field d) as [v |]; [| reflexivity].
  destruct v as [| b | z | f | s | l | o]; intros H;
    try (apply negb_true_iff in H; rewrite H; reflexivity).
  destruct o as [| kv o']; [reflexivity |].
  apply negb_true_iff in H.
  cbn [truthy py_contains rbind]. now rewrite H.
Qed.

Lemma probe_obs_latest (d : dict) (first : pyval) (rest : list pyval) :
  lookup "obs" d = Some (PList (first :: rest)) ->
  probe_obs d =
  match last (first :: rest) PNone with
  | PDict o =>
      if mem KEY o
      then (value <- getitem_str (PDict o) KEY ;; Ok (Some value))
      else Ok None
  | PList row => probe_field_map d row
  | _ => Ok None
  end.
Proof.
  intros H. unfold probe_obs, dict_get. rewrite H.
  cbn [truthy py_len rbind getitem_int].
  replace (0 <? Z.of_nat (List.length (first :: rest))) with true
    by (symmetry; apply Z.ltb_lt; simpl; lia).
  rewrite (list_index_last (first :: rest)) by discriminate.
  cbn [rbind]. now destruct (last (first :: rest) PNone).
Qed.

Lemma probe_obs_clean_miss (d : dict) :
  obs_clean_miss d = true -> probe_obs d = Ok None.
Proof.
  unfold obs_clean_miss.
  destruct (lookup "obs" d) as [[| | | | | [| first rest] |] |] eqn:Hobs;
    try discriminate.
  - intros _. unfold probe_obs, dict_get. now rewrite Hobs.
  - rewrite (probe_obs_latest d first rest Hobs).
    destruct (last (first :: rest) PNone) as [| | | | | row | o];
      try reflexivity.
    + unfold probe_field_map, dict_get.
      destruct (0 <? Z.of_nat (List.length row)); [| reflexivity].
      destruct (lookup "field_map" d) as [[| | | | | | fm] |];
        try discriminate; [| reflexivity].
      destruct (truthy (PDict fm)); [| reflexivity].
      cbn [py_items rbind]. rewrite find_field_index_spec.
      destruct (first_named fm); [discriminate | reflexivity].
    + intros H. apply negb_true_iff in H. now rewrite H.
  - intros _. unfold probe_obs, dict_get. now rewrite Hobs.
Qed.

(** What the body does once [summary] and [obs_summary] are passed over. *)
Lemma extract_body_after_summaries (d : dict) :
  clean_miss d "summary" = true ->
  clean_miss d "obs_summary" = true ->
  extract_body (PDict d) =
  (in_obs <- probe_obs d ;;
   match in_obs with
   | Some value => Ok value
   | None => if mem KEY d then getitem_str (PDict d) KEY else Ok PNone
   end).
Proof.
  intros Hs Hos. unfold extract_body.
  rewrite (probe_clean_miss d "summary" Hs). cbn [rbind].
  rewrite (probe_clean_miss d "obs_summary" Hos). reflexivity.
Qed.

(** X1: a value under [summary] is returned whatever else the response
    holds. *)
Theorem extract_summary_value (api_response summary : dict) (v : pyval) :
  lookup "summary" api_response = Some (PDict summary) ->
  lookup KEY summary = Some v ->
  extract_precip_accum_local_yesterday (PDict api_response) = Ok v.
Proof.
  intros Hs Hv.
  unfold extract_precip_accum_local_yesterday, extract_body, dict_get.
  rewrite Hs, (probe_hit summary v Hv). reflexivity.
Qed.

Lemma extract_summary_value_witness :
  let summary := [(KEY, PInt 0)] in
  let api_response :=
    [("obs", PInt 3); ("summary", PDict summary); (KEY, PFloat 2.5)] in
  lookup "summary" api_response = Some (PDict summary) /\
  lookup KEY summary = Some (PInt 0) /\
  extract_precip_accum_local_yesterday (PDict api_response) = Ok (PInt 0).
Proof.
  intros summary api_response.
  split; [reflexivity |]. split; [reflexivity |].
  apply (extract_summary_value api_response summary (PInt 0)); reflexivity.
Defined.

(** X2: when [summary] is absent, falsy or a mapping without the key, a
    value under [obs_summary] is returned. *)
Theorem extract_obs_summary_value (api_response obs_summary : dict)
    (v : pyval) :
  clean_miss api_response "summary" = true ->
  lookup "obs_summary" api_response = Some (PDict obs_summary) ->
  lookup KEY obs_summary = Some v ->
  extract_precip_accum_local_yesterday (PDict api_response) = Ok v.
Proof.
  intros Hs Hos Hv.
  unfold extract_precip_accum_local_yesterday, extract_body.
  rewrite (probe_clean_miss api_response "summary" Hs). cbn [rbind].
  unfold dict_get at 1. rewrite Hos, (probe_hit obs_summary v Hv).
  reflexivity.
Qed.

Lemma extract_obs_summary_value_witness :
  let obs_summary := [(KEY, PFloat 4.5)] in
  let api_response :=
    [("summary", PDict [("pressure_trend", PStr "steady")]);
     ("obs_summary", PDict obs_summary); (KEY, PFloat 2.5)] in
  clean_miss api_response "summary" = true /\
  lookup "obs_summary" api_response = Some (PDict obs_summary) /\
  lookup KEY obs_summary = Some (PFloat 4.5) /\
  extract_precip_accum_local_yesterday (PDict api_response) = Ok (PFloat 4.5).
Proof.
  intros obs_summary api_response.
  repeat (split; [reflexivity |]).
  apply (extract_obs_summary_value api_response obs_summary (PFloat 4.5));
    reflexivity.
Defined.

(** X3: past [summary] and [obs_summary], the value of the last element
    of [obs] is returned when that element is a mapping with the key;
    the earlier observations are not looked at. *)
Theorem extract_latest_observation_value (api_response latest : dict)
    (first : pyval) (rest : list pyval) (v : pyval) :
  clean_miss api_response "summary" = true ->
  clean_miss api_response "obs_summary" = true ->
  lookup "obs" api_response = Some (PList (first :: rest)) ->
  last (first :: rest) PNone = PDict latest ->
  lookup KEY latest = Some v ->
  extract_precip_accum_local_yesterday (PDict api_response) = Ok v.
Proof.
  intros Hs Hos Hobs Hlast Hv.
  unfold extract_precip_accum_local_yesterday.
  rewrite (extract_body_after_summaries api_response Hs Hos).
  rewrite (probe_obs_latest api_response first rest Hobs), Hlast.
  unfold mem, getitem_str. rewrite Hv. reflexivity.
Qed.

Lemma extract_latest_observation_value_witness :
  let latest := [("timestamp", PInt 1699920060); (KEY, PFloat 3.5)] in
  let older := PDict [("timestamp", PInt 1699920000); (KEY, PFloat 8.5)] in
  let api_response := [("obs", PList [older; PDict latest])] in
  clean_miss api_response "summary" = true /\
  clean_miss api_response "obs_summary" = true /\
  lookup "obs" api_response = Some (PList [older; PDict latest]) /\
  last [older; PDict latest] PNone = PDict latest /\
  lookup KEY latest = Some (PFloat 3.5) /\
  extract_precip_accum_local_yesterday (PDict api_response) = Ok (PFloat 3.5).
Proof.
  intros latest older api_response.
  repeat (split; [reflexivity |]).
  apply (extract_latest_observation_value api_response latest older
           [PDict latest] (PFloat 3.5)); reflexivity.
Defined.

Lemma probe_field_map_named (d : dict) (row : list pyval) (field_map : dict)
    (idx : string) :
  row <> [] ->
  lookup "field_map" d = Some (PDict field_map) ->
  first_named field_map = Some idx ->
  probe_field_map d row =
  (i <- int_of_str idx ;;
   if i <? Z.of_nat (List.length row)
   then (value <- list_index row i ;; Ok (Some value))
   else Ok None).
Proof.
  intros Hrow Hfm Hn. unfold probe_field_map, dict_get. rewrite Hfm.
  replace (0 <? Z.of_nat (List.length row)) with true
    by (symmetry; apply Z.ltb_lt; destruct row; [contradiction | simpl; lia]).
  destruct field_map as [| kv fm']; [discriminate |].
  cbn [truthy py_items rbind]. rewrite find_field_index_spec, Hn.
  destruct (int_of_str idx); reflexivity.
Qed.

(** X4: past [summary] and [obs_summary], when the last element of [obs]
    is an array and [field_map] names the key at index [idx], the value
    at that position of the array is returned; a negative index counts
    from the end of the array. *)
Theorem extract_field_map_value (api_response field_map : dict)
    (first : pyval) (rest row : list pyval) (idx : string) (i : Z)
    (v : pyval) :
  clean_miss api_response "summary" = true ->
  clean_miss api_response "obs_summary" = true ->
  lookup "obs" api_response = Some (PList (first :: rest)) ->
  last (first :: rest) PNone = PList row ->
  lookup "field_map" api_response = Some (PDict field_map) ->
  first_named field_map = Some idx ->
  int_of_str idx = Ok i ->
  list_index row i = Ok v ->
  extract_precip_accum_local_yesterday (PDict api_response) = Ok v.
Proof.
  intros Hs Hos Hobs Hlast Hfm Hn Hi Hv.
  pose proof (list_index_bounds row i v Hv) as Hb.
  assert (Hrow : row <> []) by (intros ->; simpl in Hb; lia).
  unfold extract_precip_accum_local_yesterday.
  rewrite (extract_body_after_summaries api_response Hs Hos).
  rewrite (probe_obs_latest api_response first rest Hobs), Hlast.
  rewrite (probe_field_map_named api_response row field_map idx Hrow Hfm Hn).
  rewrite Hi. cbn [rbind].
  replace (i <? Z.of_nat (List.length row)) with true
    by (symmetry; apply Z.ltb_lt; lia).
  rewrite Hv. reflexivity.
Qed.

Lemma extract_field_map_value_witness :
  let row := [PInt 1699920060; PFloat 12.5; PFloat 3.5] in
  let field_map := [("0", PStr "timestamp"); ("-1", PStr KEY)] in
  let api_response :=
    [("obs", PList [PList [PInt 1699920000]; PList row]);
     ("field_map", PDict field_map)] in
  clean_miss api_response "summary" = true /\
  clean_miss api_response "obs_summary" = true /\
  lookup "obs" api_response = Some (PList [PList [PInt 1699920000]; PList row]) /\
  last [PList [PInt 1699920000]; PList row] PNone = PList row /\
  lookup "field_map" api_response = Some (PDict field_map) /\
  first_named field_map = Some "-1" /\
  int_of_str "-1" = Ok (-1) /\
  list_index row (-1) = Ok (PFloat 3.5) /\
  extract_precip_accum_local_yesterday (PDict api_response) = Ok (PFloat 3.5).
Proof.
  intros row field_map api_response.
  repeat (split; [reflexivity |]).
  apply (extract_field_map_value api_response field_map
           (PList [PInt 1699920000]) [PList row] row "-1" (-1) (PFloat 3.5));
    reflexivity.
Defined.

(** X5: when [summary], [obs_summary] and [obs] are all passed over
    without incident, a value at the top level of the response is
    returned. *)
Theorem extract_root_value (api_response : dict) (v : pyval) :
  clean_miss api_response "summary" = true ->
  clean_miss api_response "obs_summary" = true ->
  obs_clean_miss api_response = true ->
  lookup KEY api_response = Some v ->
  extract_precip_accum_local_yesterday (PDict api_response) = Ok v.
Proof.
  intros Hs Hos Hobs Hv.
  unfold extract_precip_accum_local_yesterday.
  rewrite (extract_body_after_summaries api_response Hs Hos).
  rewrite (probe_obs_clean_miss api_response Hobs). cbn [rbind].
  unfold mem, getitem_str. rewrite Hv. reflexivity.
Qed.

Lemma extract_root_value_witness :
  let api_response :=
    [("summary", PDict []); ("obs", PList [PList [PInt 1699920000; PFloat 0.5]]);
     (KEY, PFloat 6.5)] in
  clean_miss api_response "summary" = true /\
  clean_miss api_response "obs_summary" = true /\
  obs_clean_miss api_response = true /\
  lookup KEY api_response = Some (PFloat 6.5) /\
  extract_precip_accum_local_yesterday (PDict api_response) = Ok (PFloat 6.5).
Proof.
  intros api_response.
  repeat (split; [reflexivity |]).
  apply (extract_root_value api_response (PFloat 6.5)); reflexivity.
Defined.

Lemma probe_shape_error (c : pyval) :
  shape_error c = true -> probe c = Raise TypeError.
Proof.
  unfold shape_error, probe. intros H. apply andb_prop in H as [Ht H].
  rewrite Ht. destruct c; try discriminate; try reflexivity;
    cbn [py_contains rbind]; rewrite H; reflexivity.
Qed.

(** X6: a [summary] that is a number, or a string or list in which the
    key is found, makes the extractor return [None]: the [TypeError] of
    the first check is swallowed, and no later place is read, not even a
    value at the top level. *)
Theorem extract_summary_shape_error (api_response : dict) :
  shape_error (dict_get api_response "summary" (PDict [])) = true ->
  extract_body (PDict api_response) = Raise TypeError /\
  extract_precip_accum_local_yesterday (PDict api_response) = Ok PNone.
Proof.
  intros H. unfold extract_precip_accum_local_yesterday, extract_body.
  rewrite (probe_shape_error _ H). split; reflexivity.
Qed.

Lemma extract_summary_shape_error_witness :
  let api_response := [("summary", PInt 7); (KEY, PFloat 2.5)] in
  shape_error (dict_get api_response "summary" (PDict [])) = true /\
  extract_precip_accum_local_yesterday (PDict api_response) = Ok PNone.
Proof.
  intros api_response. split; [reflexivity |].
  apply (extract_summary_shape_error api_response). reflexivity.
Defined.

(** X7: when the index under which [field_map] first names the key is
    not an integer literal, or lies before the start of the array, the
    lookup raises and the extractor returns [None], whatever the top
    level of the response holds. *)
Theorem extract_unreadable_index (api_response field_map : dict)
    (first : pyval) (rest row : list pyval) (idx : string) :
  clean_miss api_response "summary" = true ->
  clean_miss api_response "obs_summary" = true ->
  lookup "obs" api_response = Some (PList (first :: rest)) ->
  last (first :: rest) PNone = PList row ->
  row <> [] ->
  lookup "field_map" api_response = Some (PDict field_map) ->
  first_named field_map = Some idx ->
  index_raises row idx = true ->
  extract_precip_accum_local_yesterday (PDict api_response) = Ok PNone.
Proof.
  intros Hs Hos Hobs Hlast Hrow Hfm Hn Hbad.
  unfold extract_precip_accum_local_yesterday.
  rewrite (extract_body_after_summaries api_response Hs Hos).
  rewrite (probe_obs_latest api_response first rest Hobs), Hlast.
  rewrite (probe_field_map_named api_response row field_map idx Hrow Hfm Hn).
  unfold index_raises in Hbad.
  destruct (int_of_str idx) as [i | e]; [| reflexivity].
  apply Z.ltb_lt in Hbad. cbn [rbind].
  replace (i <? Z.of_nat (List.length row)) with true
    by (symmetry; apply Z.ltb_lt; lia).
  destruct (list_index row i) as [v |] eqn:Hv; [| reflexivity].
  apply list_index_bounds in Hv. lia.
Qed.

Lemma extract_unreadable_index_witness :
  let row := [PInt 1699920060; PFloat 3.5] in
  let field_map := [("first", PStr KEY); ("1", PStr KEY)] in
  let api_response :=
    [("obs", PList [PList row]); ("field_map", PDict field_map);
     (KEY, PFloat 2.5)] in
  clean_miss api_response "summary" = true /\
  clean_miss api_response "obs_summary" = true /\
  lookup "obs" api_response = Some (PList [PList row]) /\
  last [PList row] PNone = PList row /\
  row <> [] /\
  lookup "field_map" api_response = Some (PDict field_map) /\
  first_named field_map = Some "first" /\
  index_raises row "first" = true /\
  extract_precip_accum_local_yesterday (PDict api_response) = Ok PNone.
Proof.
  intros row field_map api_response.
  do 4 (split; [reflexivity |]). split; [discriminate |].
  do 3 (split; [reflexivity |]).
  apply (extract_unreadable_index api_response field_map (PList row) []
           row "first");
    try reflexivity; discriminate.
Defined.

(** X8: when the index under which [field_map] first names the key is
    at or past the end of the array, the array is passed over and the
    top level decides: its value if it has the key, [None] otherwise. *)
Theorem extract_index_past_row (api_response field_map : dict)
    (first : pyval) (rest row : list pyval) (idx : string) (i : Z) :
  clean_miss api_response "summary" = true ->
  clean_miss api_response "obs_summary" = true ->
  lookup "obs" api_response = Some (PList (first :: rest)) ->
  last (first :: rest) PNone = PList row ->
  lookup "field_map" api_response = Some (PDict field_map) ->
  first_named field_map = Some idx ->
  int_of_str idx = Ok i ->
  Z.of_nat (List.length row) <= i ->
  extract_precip_accum_local_yesterday (PDict api_response)
  = Ok (dict_get api_response KEY PNone).
Proof.
  intros Hs Hos Hobs Hlast Hfm Hn Hi Hpast.
  unfold extract_precip_accum_local_yesterday.
  rewrite (extract_body_after_summaries api_response Hs Hos).
  rewrite (probe_obs_latest api_response first rest Hobs), Hlast.
  assert (Hmiss : probe_field_map api_response row = Ok None).
  { destruct row as [| r0 row'].
    - reflexivity.
    - rewrite (probe_field_map_named api_response (r0 :: row') field_map idx
                 ltac:(discriminate) Hfm Hn), Hi.
      cbn [rbind].
      replace (i <? Z.of_nat (List.length (r0 :: row'))) with false
        by (symmetry; apply Z.ltb_ge; lia).
      reflexivity. }
  rewrite Hmiss. cbn [rbind]. unfold mem, getitem_str, dict_get.
  now destruct (lookup KEY api_response).
Qed.

Lemma extract_index_past_row_witness :
  let row := [PInt 1699920060; PFloat 3.5] in
  let field_map := [("2", PStr KEY)] in
  let api_response :=
    [("obs", PList [PList row]); ("field_map", PDict field_map);
     (KEY, PFloat 2.5)] in
  clean_miss api_response "summary" = true /\
  clean_miss api_response "obs_summary" = true /\
  lookup "obs" api_response = Some (PList [PList row]) /\
  last [PList row] PNone = PList row /\
  lookup "field_map" api_response = Some (PDict field_map) /\
  first_named field_map = Some "2" /\
  int_of_str "2" = Ok 2 /\
  Z.of_nat (List.length row) <= 2 /\
  extract_precip_accum_local_yesterday (PDict api_response) = Ok (PFloat 2.5).
Proof.
  intros row field_map api_response.
  do 7 (split; [reflexivity |]). split; [simpl; lia |].
  apply (extract_index_past_row api_response field_map (PList row) []
           row "2" 2);
    reflexivity.
Defined.

Lemma probe_field_map_value (d : dict) (row : list pyval) (v : pyval) :
  probe_field_map d row = Ok (Some v) ->
  exists field_map idx i,
    lookup "field_map" d = Some (PDict field_map) /\
    first_named field_map = Some idx /\
    int_of_str idx = Ok i /\ list_index row i = Ok v.
Proof.
  unfold probe_field_map, dict_get.
  destruct (0 <? Z.of_nat (List.length row)); [| discriminate].
  destruct (lookup "field_map" d) as [fm |]; [| discriminate].
  destruct (truthy fm); [| discriminate].
  destruct fm as [| | | | | | fm]; try discriminate.
  cbn [py_items rbind]. rewrite find_field_index_spec.
  destruct (first_named fm) as [idx |] eqn:Hn; [| discriminate].
  destruct (int_of_str idx) as [i | e] eqn:Hi; [| discriminate].
  cbn [rbind]. destruct (i <? Z.of_nat (List.length row)); [| discriminate].
  destruct (list_index row i) as [value | e] eqn:Hv; [| discriminate].
  intros [= <-]. exists fm, idx, i. repeat split; assumption || reflexivity.
Qed.

Lemma extract_body_value (d : dict) (v : pyval) :
  extract_body (PDict d) = Ok v -> v = PNone \/ stored_at d v.
Proof.
  unfold extract_body, stored_at.
  destruct (probe (dict_get d "summary" (PDict []))) as [[v1 |] | e] eqn:E1;
    [| | discriminate].
  { intros [= <-]. right. left.
    apply probe_sound in E1 as (s & Hs & L). exists s. split; [| exact L].
    unfold dict_get in Hs. destruct (lookup "summary" d); [now subst |].
    injection Hs as <-. discriminate. }
  cbn [rbind].
  destruct (probe (dict_get d "obs_summary" (PDict []))) as [[v2 |] | e] eqn:E2;
    [| | discriminate].
  { intros [= <-]. right. right. left.
    apply probe_sound in E2 as (s & Hs & L). exists s. split; [| exact L].
    unfold dict_get in Hs. destruct (lookup "obs_summary" d); [now subst |].
    injection Hs as <-. discriminate. }
  cbn [rbind].
  destruct (probe_obs d) as [[v3 |] | e] eqn:E3; [| | discriminate].
  { intros [= <-]. right. right. right.
    destruct (probe_obs_sound d v3 E3) as (first & rest & Hobs & _).
    rewrite (probe_obs_latest d first rest Hobs) in E3.
    destruct (last (first :: rest) PNone) as [| | | | | row | o] eqn:Hlast;
      try discriminate.
    - right. left.
      destruct (probe_field_map_value d row v3 E3) as (fm & idx & i & H).
      exists first, rest, row, fm, idx, i.
      split; [exact Hobs |]. split; [exact Hlast | exact H].
    - left. exists first, rest, o. split; [exact Hobs |]. split; [exact Hlast |].
      unfold mem, getitem_str in E3.
      destruct (lookup KEY o); [now injection E3 as <- | discriminate]. }
  cbn [rbind]. unfold mem, getitem_str.
  destruct (lookup KEY d) as [v4 |].
  - intros [= <-]. now do 5 right.
  - intros [= <-]. now left.
Qed.

(** X9: the extractor invents nothing: a result other than [None] is a
    value the response holds under [summary], under [obs_summary], in
    the last element of [obs] (under the key, or at the position
    [field_map] gives) or at its top level. *)
Theorem extract_value_is_stored (api_response v : pyval) :
  extract_precip_accum_local_yesterday api_response = Ok v ->
  v = PNone \/ exists d, api_response = PDict d /\ stored_at d v.
Proof.
  unfold extract_precip_accum_local_yesterday, try_except.
  destruct (extract_body api_response) as [v0 | e] eqn:E;
    [| intros [= <-]; now left].
  intros [= <-].
  destruct api_response as [| | | | | | d];
    try (injection E as <-; now left).
  destruct (extract_body_value d v0 E) as [-> | H]; [now left |].
  right. now exists d.
Qed.

Lemma extract_value_is_stored_witness :
  extract_precip_accum_local_yesterday (PDict obs_and_root) = Ok (PFloat 2.5) /\
  (PFloat 2.5 = PNone \/
   exists d, PDict obs_and_root = PDict d /\ stored_at d (PFloat 2.5)).
Proof.
  split; [reflexivity |].
  apply (extract_value_is_stored (PDict obs_and_root) (PFloat 2.5)).
  reflexivity.
Defined.

End ExtractorBehaviour.

(* ================================================================= *)
(** ** The fetcher, step by step *)

Section FetcherBehaviour.

Import Tempest Shape Behaviour Samples.

Lemma timestamp_of_mapping (d : dict) :
  py_or (py_or (dict_get d "timestamp" PNone) (dict_get d "time" PNone))
        (dict_get d "ts" PNone)
  = timestamp_of (PDict d).
Proof.
  unfold timestamp_of, py_or, dict_get.
  destruct (lookup "timestamp" d) as [t |]; cbn beta iota.
  - destruct (truthy t) eqn:Ht; [now rewrite Ht |].
    destruct (lookup "time" d) as [t' |]; cbn beta iota; [| reflexivity].
    destruct (truthy t') eqn:Ht'; reflexivity.
  - change (truthy PNone) with false. cbn beta iota.
    destruct (lookup "time" d) as [t' |]; cbn beta iota; [| reflexivity].
    destruct (truthy t') eqn:Ht'; reflexivity.
Qed.

Lemma normalize_one_value (idx : Z) (obs : pyval) :
  normalize_one idx obs
  = Ok ((if kept obs then [wrapper (timestamp_of obs) obs] else []),
        (if is_foreign obs
         then [UnexpectedObservationFormat idx (type_name obs)] else [])).
Proof.
  destruct obs as [| b | z | f | s | [| a l] | d]; try reflexivity.
  unfold normalize_one, normalize_body, try_except.
  now rewrite timestamp_of_mapping.
Qed.

Lemma normalize_from_value (raw : list pyval) :
  forall idx,
    normalize_from idx raw
    = Ok (map (fun obs => wrapper (timestamp_of obs) obs) (filter kept raw),
          warnings_from idx raw).
Proof.
  induction raw as [| obs rest IH]; intros idx; [reflexivity |].
  cbn [normalize_from]. rewrite normalize_one_value, (IH (idx + 1)).
  cbn [rbind fst snd filter warnings_from].
  destruct (kept obs); destruct (is_foreign obs); reflexivity.
Qed.

(** X10: on a list of raw observations the normalising loop is a filter
    followed by a map: it keeps the non-empty arrays and the mappings, in
    order, each wrapped with its timestamp (the first element of an
    array; for a mapping the first truthy of [timestamp], [time], [ts]),
    and it warns about exactly the elements that are neither. *)
Theorem normalize_is_filter_map (data : pyval) (raw : list pyval) :
  observations_of data = PList raw ->
  normalize data
  = Ok (map (fun obs => wrapper (timestamp_of obs) obs) (filter kept raw),
        warnings_from 0 raw).
Proof.
  intros H. unfold normalize. rewrite H. cbn [py_len py_iter rbind].
  apply normalize_from_value.
Qed.

Lemma normalize_is_filter_map_witness :
  let reading := PDict [("timestamp", PInt 0); ("time", PInt 1699920000)] in
  let row := PList [PInt 1699920060; PFloat 0.5] in
  let raw := [PStr "n/a"; reading; PList []; row] in
  observations_of (PList raw) = PList raw /\
  normalize (PList raw)
  = Ok ([wrapper (PInt 1699920000) reading; wrapper (PInt 1699920060) row],
        [UnexpectedObservationFormat 0 "str"]).
Proof.
  intros reading row raw. split; [reflexivity |].
  apply (normalize_is_filter_map (PList raw) raw). reflexivity.
Defined.

(** X11: the window asked of the weather API is the UTC day before the
    one the clock reading falls in: it starts at a midnight, and the
    reading lies in the day that follows its end. *)
Theorem yesterday_window (t : Z) :
  yesterday_start t mod SECONDS_PER_DAY = 0 /\
  yesterday_start t + SECONDS_PER_DAY <= t
    < yesterday_start t + 2 * SECONDS_PER_DAY.
Proof.
  unfold yesterday_start, SECONDS_PER_DAY. split.
  - apply Z.mod_mul. lia.
  - pose proof (Z.div_mod (t - 86400) 86400 ltac:(lia)) as Hdm.
    pose proof (Z.mod_pos_bound (t - 86400) 86400 ltac:(lia)) as Hb.
    lia.
Qed.

Lemma emit_all_run (ws : list log_record) :
  forall w, emit_all ws w = (Ok tt, noted w (map Warning ws)).
Proof.
  induction ws as [| x rest IH]; intros w.
  - destruct w. unfold noted. cbn. now rewrite app_nil_r.
  - cbn [emit_all]. unfold bind, emit. rewrite IH. unfold noted.
    cbn. now rewrite <- app_assoc.
Qed.

Lemma exchange_failure (r : request) (w : world) (e : exn) :
  transport_failure (replies w) = Some e ->
  exchange r w = (Raise e, answered w r (tl (replies w))).
Proof.
  unfold exchange, bind, send, transport_failure, answered.
  destruct (replies w) as [| [body | | body |] rest]; intros [= <-];
    reflexivity.
Qed.

(** X12: when the weather API answers with a decodable body whose
    observations are a list, the fetcher makes that one request, for the
    window of the previous UTC day, logs the normaliser's warnings, and
    returns the normalised list together with the body as received. *)
Theorem fetch_returns_body_untouched (token station_id data : pyval)
    (wrappers : list pyval) (warnings : list log_record)
    (w : world) (rest : list http_reply) :
  replies w = Reply data :: rest ->
  normalize data = Ok (wrappers, warnings) ->
  get_yesterday_rainfall_data token station_id w
  = (Ok (wrappers, data),
     noted (answered (ticked w)
              (tempest_request station_id token (clock w (ticks w))) rest)
           (map Warning warnings)).
Proof.
  intros Hrep Hnorm. unfold get_yesterday_rainfall_data, bind at 1, now.
  fold (ticked w). unfold try_with.
  rewrite (bind_ok _ _ _ _ _
             (exchange_reply _ (ticked w) data rest Hrep)).
  unfold bind, lift. rewrite Hnorm. cbn [snd fst].
  rewrite emit_all_run. reflexivity.
Qed.

Lemma fetch_returns_body_untouched_witness :
  let w := world_with [Reply with_empty_row] in
  replies w = [Reply with_empty_row] /\
  normalize with_empty_row
  = Ok ([wrapper (PInt 1699920000) (PList [PInt 1699920000; PFloat 0.5])], []) /\
  fst (get_yesterday_rainfall_data (PStr "token") (PStr "1234") w)
  = Ok ([wrapper (PInt 1699920000) (PList [PInt 1699920000; PFloat 0.5])],
        with_empty_row).
Proof.
  intros w. split; [reflexivity |]. split; [reflexivity |].
  rewrite (fetch_returns_body_untouched (PStr "token") (PStr "1234")
             with_empty_row
             [wrapper (PInt 1699920000) (PList [PInt 1699920000; PFloat 0.5])]
             [] w [] eq_refl eq_refl).
  reflexivity.
Defined.

(** X13: when the weather API does not answer with a decodable success
    (no answer, an error status, a body that is not JSON), the fetcher
    raises the transport or decoding error after that single request; it
    neither retries nor returns anything. *)
Theorem fetch_propagates_transport_failure (token station_id : pyval)
    (w : world) (e : exn) :
  transport_failure (replies w) = Some e ->
  get_yesterday_rainfall_data token station_id w
  = (Raise e,
     answered (ticked w)
       (tempest_request station_id token (clock w (ticks w)))
       (tl (replies w))).
Proof.
  intros H. unfold get_yesterday_rainfall_data, bind at 1, now.
  fold (ticked w). unfold try_with.
  rewrite (bind_raise _ _ _ _ _ (exchange_failure _ (ticked w) e H)).
  reflexivity.
Qed.

Lemma fetch_propagates_transport_failure_witness :
  let w := world_with [ErrorStatus None; Reply with_empty_row] in
  transport_failure (replies w) = Some (RequestException (Some None)) /\
  fst (get_yesterday_rainfall_data (PStr "token") (PStr "1234") w)
  = Raise (RequestException (Some None)) /\
  replies (snd (get_yesterday_rainfall_data (PStr "token") (PStr "1234") w))
  = [Reply with_empty_row].
Proof.
  intros w. split; [reflexivity |].
  rewrite (fetch_propagates_transport_failure (PStr "token") (PStr "1234") w
             (RequestException (Some None)) eq_refl).
  split; reflexivity.
Defined.

(** X14: a body whose [obs] is present but has no length ([null], a
    number, a boolean) makes the fetcher raise [TypeError]: the default
    of [data.get('obs', [])] does not apply to a key that is there. *)
Theorem fetch_unsized_obs_raises (token station_id : pyval) (d : dict)
    (obs : pyval) (w : world) (rest : list http_reply) :
  replies w = Reply (PDict d) :: rest ->
  lookup "obs" d = Some obs ->
  unsized obs = true ->
  get_yesterday_rainfall_data token station_id w
  = (Raise TypeError,
     answered (ticked w)
       (tempest_request station_id token (clock w (ticks w))) rest).
Proof.
  intros Hrep Hobs Hun. unfold get_yesterday_rainfall_data, bind at 1, now.
  fold (ticked w). unfold try_with.
  rewrite (bind_ok _ _ _ _ _
             (exchange_reply _ (ticked w) (PDict d) rest Hrep)).
  unfold bind, lift, normalize, observations_of, dict_get. rewrite Hobs.
  destruct obs; try discriminate; reflexivity.
Qed.

Lemma fetch_unsized_obs_raises_witness :
  let d := [("status", PDict [("status_code", PInt 0)]); ("obs", PNone)] in
  let w := world_with [Reply (PDict d)] in
  replies w = [Reply (PDict d)] /\
  lookup "obs" d = Some PNone /\
  unsized PNone = true /\
  fst (get_yesterday_rainfall_data (PStr "token") (PStr "1234") w)
  = Raise TypeError.
Proof.
  intros d w. do 3 (split; [reflexivity |]).
  rewrite (fetch_unsized_obs_raises (PStr "token") (PStr "1234") d PNone w []
             eq_refl eq_refl eq_refl).
  reflexivity.
Defined.

End FetcherBehaviour.

(* ================================================================= *)
(** ** The parameter reader *)

Section ParameterBehaviour.

Import Utils Shape Behaviour Samples.

Lemma get_parameter_world (name : string) (w : world) :
  snd (get_parameter_from_ssm name w) = noted w [GetParameter name].
Proof.
  unfold get_parameter_from_ssm, bind, read_parameter.
  destruct (ssm w name) as [response | code text | text]; cbn beta iota.
  - reflexivity.
  - destruct (String.eqb code "ParameterNotFound"); [reflexivity |].
    destruct (String.eqb code "AccessDeniedException"); reflexivity.
  - reflexivity.
Qed.

(** X15: for a response of the store that holds [Parameter] with a
    [Value], the reader returns that value after one read of the store. *)
Theorem get_parameter_returns_value (name : string) (w : world)
    (response parameter : dict) (v : pyval) :
  ssm w name = SsmResponse (PDict response) ->
  lookup "Parameter" response = Some (PDict parameter) ->
  lookup "Value" parameter = Some v ->
  get_parameter_from_ssm name w = (Ok v, noted w [GetParameter name]).
Proof.
  intros Hs Hp Hv. unfold get_parameter_from_ssm, bind, read_parameter.
  rewrite Hs. unfold lift, parameter_value, py_contains, mem, getitem_str.
  rewrite Hp. cbn [rbind negb]. rewrite Hv. reflexivity.
Qed.

Lemma get_parameter_returns_value_witness :
  let w := world_with [] in
  let name := "bonesranch.agriwebb-rain.tempest.token" in
  let parameter := [("Name", PStr name); ("Value", PStr ("value-of-" ++ name))] in
  ssm w name = SsmResponse (PDict [("Parameter", PDict parameter)]) /\
  lookup "Parameter" [("Parameter", PDict parameter)] = Some (PDict parameter) /\
  lookup "Value" parameter = Some (PStr ("value-of-" ++ name)) /\
  get_parameter_from_ssm name w
  = (Ok (PStr ("value-of-" ++ name)), noted w [GetParameter name]).
Proof.
  intros w name parameter. do 3 (split; [reflexivity |]).
  apply (get_parameter_returns_value name w [("Parameter", PDict parameter)]
           parameter (PStr ("value-of-" ++ name)));
    reflexivity.
Defined.

(** X16: whatever the store answers, the reader reads it once, and the
    only exception it lets out is a [ValueError]. *)
Theorem get_parameter_raises_only_value_error (name : string) (w w' : world)
    (e : exn) :
  get_parameter_from_ssm name w = (Raise e, w') ->
  (exists msg, e = ValueError msg) /\ w' = noted w [GetParameter name].
Proof.
  intros H. split.
  - revert H. unfold get_parameter_from_ssm, bind, read_parameter.
    destruct (ssm w name) as [response | code text | text]; cbn beta iota.
    + unfold lift, try_except.
      destruct (parameter_value name response); intros [= <- _];
        now eexists.
    + destruct (String.eqb code "ParameterNotFound");
        [intros [= <- _]; now eexists |].
      destruct (String.eqb code "AccessDeniedException");
        intros [= <- _]; now eexists.
    + intros [= <- _]. now eexists.
  - rewrite <- (get_parameter_world name w). now rewrite H.
Qed.

Lemma get_parameter_raises_only_value_error_witness :
  let w := {| clock := fun _ => 1700000000; ticks := 0;
              ssm := fun _ => SsmResponse (PInt 3);
              replies := []; trace := [] |} in
  exists msg,
    get_parameter_from_ssm "farm" w
    = (Raise (ValueError msg), noted w [GetParameter "farm"]).
Proof.
  intros w.
  destruct (get_parameter_raises_only_value_error "farm" w
              (noted w [GetParameter "farm"])
              (ValueError "Unexpected error retrieving SSM parameter 'farm': TypeError")
              eq_refl) as [(msg & Hmsg) _].
  exists msg. rewrite <- Hmsg. reflexivity.
Defined.

(** X17: a response of the store without [Parameter], or whose
    [Parameter] has no [Value], ends in a [ValueError] whose text is the
    structure complaint wrapped in the text for unexpected errors: the
    [ValueError] raised inside the [try] is caught by the function's own
    [except Exception]. *)
Theorem get_parameter_incomplete_response (name : string) (w : world)
    (response : dict) :
  ssm w name = SsmResponse (PDict response) ->
  (lookup "Parameter" response = None \/
   exists parameter,
     lookup "Parameter" response = Some (PDict parameter) /\
     lookup "Value" parameter = None) ->
  get_parameter_from_ssm name w
  = (Raise (ValueError
       ("Unexpected error retrieving SSM parameter '" ++ name ++ "': "
        ++ "Unexpected SSM response structure for parameter '" ++ name ++ "'")),
     noted w [GetParameter name]).
Proof.
  intros Hs Hmiss. unfold get_parameter_from_ssm, bind, read_parameter.
  rewrite Hs. unfold lift, parameter_value, py_contains, mem, getitem_str.
  destruct Hmiss as [Hp | (parameter & Hp & Hv)]; rewrite Hp.
  - reflexivity.
  - cbn [rbind negb]. rewrite Hv. reflexivity.
Qed.

Lemma get_parameter_incomplete_response_witness :
  let w := {| clock := fun _ => 1700000000; ticks := 0;
              ssm := fun _ => SsmResponse (PDict [("Parameter", PDict [("Name", PStr "farm")])]);
              replies := []; trace := [] |} in
  ssm w "farm" = SsmResponse (PDict [("Parameter", PDict [("Name", PStr "farm")])]) /\
  fst (get_parameter_from_ssm "farm" w)
  = Raise (ValueError "Unexpected error retrieving SSM parameter 'farm': Unexpected SSM response structure for parameter 'farm'").
Proof.
  intros w. split; [reflexivity |].
  rewrite (get_parameter_incomplete_response "farm" w
             [("Parameter", PDict [("Name", PStr "farm")])] eq_refl).
  - reflexivity.
  - right. exists [("Name", PStr "farm")]. split; reflexivity.
Defined.

End ParameterBehaviour.

(* ================================================================= *)
(** ** The sensor lookup and the publish step, request by request *)

Section AgriwebbBehaviour.

Import AgriWebb Shape Behaviour Samples.

Variable py_str : pyval -> string.

Lemma exchange_world (r : request) (w : world) :
  snd (exchange r w) = answered w r (tl (replies w)).
Proof.
  unfold exchange, bind, send, answered.
  destruct (replies w) as [| [body | | body |] rest]; reflexivity.
Qed.

Lemma reraise_world {A} (e : exn) (w : world) : snd (@reraise A e w) = w.
Proof. destruct (@reraise_raises A e w) as (e' & ->). reflexivity. Qed.

(** One exchange, a pure reading of the body, the module's handlers:
    exactly one request leaves, however the step ends. *)
Lemma guarded_exchange_world {A} (r : request) (f : pyval -> result A)
    (w : world) :
  snd (try_with (body <~ exchange r ;; lift (f body)) reraise w)
  = answered w r (tl (replies w)).
Proof.
  unfold try_with, bind. pose proof (exchange_world r w) as Hw.
  destruct (exchange r w) as [[body | e] w1]; cbn [snd] in Hw; subst w1.
  - unfold lift. destruct (f body); [reflexivity | apply reraise_world].
  - apply reraise_world.
Qed.

Lemma guarded_exchange_reply {A} (r : request) (f : pyval -> result A)
    (w : world) (body : pyval) (rest : list http_reply) :
  replies w = Reply body :: rest ->
  try_with (b <~ exchange r ;; lift (f b)) reraise w
  = match f body with
    | Ok a => (Ok a, answered w r rest)
    | Raise e => reraise e (answered w r rest)
    end.
Proof.
  intros H. unfold try_with.
  rewrite (bind_ok _ _ _ _ _ (exchange_reply r w body rest H)).
  unfold lift. now destruct (f body).
Qed.

Lemma lookup_appends_one_request (access_token farm_id : pyval)
    (w : world) :
  trace (snd (get_rain_gauge_sensor_id access_token farm_id w))
  = (trace w ++ [Sent (lookup_of access_token farm_id)])%list.
Proof.
  unfold get_rain_gauge_sensor_id. now rewrite guarded_exchange_world.
Qed.

Lemma pyval_is_none (v : pyval) : v = PNone \/ v <> PNone.
Proof. destruct v; (now left) || (right; discriminate). Qed.

(** X18: for a farm without a rain gauge, whether the API answers
    [mapFeatures] with an empty list or with [null], the lookup returns
    [None]. *)
Theorem sensor_lookup_without_gauge (access_token farm_id : pyval)
    (w : world) (body data : dict) (rest : list http_reply) :
  replies w = Reply (PDict body) :: rest ->
  lookup "data" body = Some (PDict data) ->
  lookup "mapFeatures" data = Some PNone \/
  lookup "mapFeatures" data = Some (PList []) ->
  get_rain_gauge_sensor_id access_token farm_id w
  = (Ok PNone, answered w (lookup_of access_token farm_id) rest).
Proof.
  intros Hrep Hd Hf. unfold get_rain_gauge_sensor_id.
  rewrite (guarded_exchange_reply _ first_feature_id w (PDict body) rest Hrep).
  unfold first_feature_id, getitem_str. rewrite Hd. cbn [rbind].
  destruct Hf as [-> | ->]; reflexivity.
Qed.

Lemma sensor_lookup_without_gauge_witness :
  let body := [("data", PDict [("mapFeatures", PNone)])] in
  let w := world_with [Reply (PDict body)] in
  replies w = [Reply (PDict body)] /\
  lookup "data" body = Some (PDict [("mapFeatures", PNone)]) /\
  fst (get_rain_gauge_sensor_id (PStr "token") (PStr "farm-1") w) = Ok PNone.
Proof.
  intros body w. do 2 (split; [reflexivity |]).
  rewrite (sensor_lookup_without_gauge (PStr "token") (PStr "farm-1") w body
             [("mapFeatures", PNone)] [] eq_refl eq_refl (or_introl eq_refl)).
  reflexivity.
Defined.

(** X19: however it ends, a sensor lookup sends exactly one request, the
    [mapFeatures] query filtered on the rain-gauge type tag and the farm,
    and uses up one answer. *)
Theorem sensor_lookup_single_request (access_token farm_id : pyval)
    (w : world) :
  let w' := snd (get_rain_gauge_sensor_id access_token farm_id w) in
  trace w' = (trace w ++ [Sent (lookup_of access_token farm_id)])%list /\
  replies w' = tl (replies w).
Proof.
  cbv zeta. unfold get_rain_gauge_sensor_id.
  rewrite guarded_exchange_world. split; reflexivity.
Qed.

(** X20: an error status is not handed on as it came when its body is
    not JSON: the handler's logging of [e.response.json()] raises, and
    the decoding error replaces the HTTP error.  With a JSON body the
    HTTP error is re-raised. *)
Theorem sensor_lookup_error_status (access_token farm_id : pyval)
    (w : world) (body : option pyval) (rest : list http_reply) :
  replies w = ErrorStatus body :: rest ->
  get_rain_gauge_sensor_id access_token farm_id w
  = (Raise match body with
           | None => JSONDecodeError
           | Some b => RequestException (Some (Some b))
           end,
     answered w (lookup_of access_token farm_id) rest).
Proof.
  intros H. unfold get_rain_gauge_sensor_id, try_with.
  assert (Hx : transport_failure (replies w)
               = Some (RequestException (Some body))) by now rewrite H.
  rewrite (bind_raise _ _ _ _ _ (exchange_failure _ w _ Hx)), H.
  now destruct body.
Qed.

Lemma sensor_lookup_error_status_witness :
  let w := world_with [ErrorStatus None] in
  replies w = [ErrorStatus None] /\
  fst (get_rain_gauge_sensor_id (PStr "token") (PStr "farm-1") w)
  = Raise JSONDecodeError.
Proof.
  intros w. split; [reflexivity |].
  rewrite (sensor_lookup_error_status (PStr "token") (PStr "farm-1") w None []
             eq_refl).
  reflexivity.
Defined.

(** X21: the lookup does not inspect [errors]: an answer whose [data] is
    [null], as a GraphQL failure has it, ends in a [TypeError], and one
    without [data] in a [KeyError]. *)
Theorem sensor_lookup_without_data (access_token farm_id : pyval)
    (w : world) (body : dict) (rest : list http_reply) :
  replies w = Reply (PDict body) :: rest ->
  lookup "data" body = None \/ lookup "data" body = Some PNone ->
  get_rain_gauge_sensor_id access_token farm_id w
  = (Raise match lookup "data" body with
           | None => KeyError
           | Some _ => TypeError
           end,
     answered w (lookup_of access_token farm_id) rest).
Proof.
  intros Hrep Hd. unfold get_rain_gauge_sensor_id.
  rewrite (guarded_exchange_reply _ first_feature_id w (PDict body) rest Hrep).
  unfold first_feature_id, getitem_str.
  destruct Hd as [-> | ->]; reflexivity.
Qed.

Lemma sensor_lookup_without_data_witness :
  let body := [("errors", PList [PDict [("message", PStr "Unauthorized")]]);
               ("data", PNone)] in
  let w := world_with [Reply (PDict body)] in
  replies w = [Reply (PDict body)] /\
  lookup "data" body = Some PNone /\
  fst (get_rain_gauge_sensor_id (PStr "token") (PStr "farm-1") w)
  = Raise TypeError.
Proof.
  intros body w. do 2 (split; [reflexivity |]).
  rewrite (sensor_lookup_without_data (PStr "token") (PStr "farm-1") w body []
             eq_refl (or_intror eq_refl)).
  reflexivity.
Defined.

Lemma resolve_sensor_found (create : option (pyval -> pyval -> M pyval))
    (access_token farm_id sensor_id : pyval) (w w1 : world) :
  get_rain_gauge_sensor_id access_token farm_id w = (Ok sensor_id, w1) ->
  sensor_id <> PNone ->
  resolve_sensor create access_token farm_id w = (Ok sensor_id, w1).
Proof.
  intros H Hne. unfold resolve_sensor. rewrite (bind_ok _ _ _ _ _ H).
  destruct sensor_id; try reflexivity. contradiction.
Qed.

Lemma publish_world (access_token farm_id sensor_id : pyval)
    (rainfall_inches : float) (time_ms : Z) (w : world) :
  snd (publish py_str access_token farm_id sensor_id rainfall_inches time_ms w)
  = answered w (publish_of access_token farm_id sensor_id rainfall_inches time_ms)
      (tl (replies w)).
Proof. unfold publish. apply guarded_exchange_world. Qed.

(** Every run of [update_rainfall] has one of two shapes: it raises after
    the lookup alone, or the lookup found a sensor and the publish
    request for that sensor followed. *)
Lemma update_rainfall_shape (access_token farm_id : pyval)
    (rainfall_inches : float) (time_ms : Z) (w : world) :
  let run := update_rainfall py_str access_token farm_id rainfall_inches
               time_ms w in
  ((exists e, fst run = Raise e) /\
   trace (snd run) = (trace w ++ [Sent (lookup_of access_token farm_id)])%list)
  \/
  (exists sensor_id,
     sensor_id <> PNone /\
     fst (get_rain_gauge_sensor_id access_token farm_id w) = Ok sensor_id /\
     trace (snd run)
     = (trace w ++ [Sent (lookup_of access_token farm_id);
                    Sent (publish_of access_token farm_id sensor_id
                            rainfall_inches time_ms)])%list).
Proof.
  cbv zeta.
  pose proof (lookup_appends_one_request access_token farm_id w) as Ht.
  destruct (get_rain_gauge_sensor_id access_token farm_id w)
    as [[sensor_id | e] w1] eqn:Hget; cbn [snd] in Ht.
  - destruct (pyval_is_none sensor_id) as [-> | Hne].
    + left. rewrite (update_rainfall_unbound_creation py_str _ _ _ _ _ _ Hget).
      split; [now eexists | exact Ht].
    + right. exists sensor_id. split; [exact Hne |]. split; [reflexivity |].
      unfold update_rainfall, update_rainfall_with.
      rewrite (bind_ok _ _ _ _ _
                 (resolve_sensor_found _ _ _ _ _ _ Hget Hne)).
      rewrite publish_world. unfold answered. cbn [trace].
      rewrite Ht, <- app_assoc. reflexivity.
  - left. unfold update_rainfall, update_rainfall_with, resolve_sensor.
    rewrite (bind_raise _ _ _ _ _ (bind_raise _ _ _ _ _ Hget)).
    split; [now eexists | exact Ht].
Qed.


(** X23: [update_rainfall] sends the sensor lookup and then at most one
    [addRainfalls] mutation, and nothing else: no retry, no publish
    without a lookup before it, and a result is returned only after a
    publish. *)
Theorem update_rainfall_requests (access_token farm_id : pyval)
    (rainfall_inches : float) (time_ms : Z) (w : world) :
  let run := update_rainfall py_str access_token farm_id rainfall_inches
               time_ms w in
  (trace (snd run)
   = (trace w ++ [Sent (lookup_of access_token farm_id)])%list /\
   exists e, fst run = Raise e)
  \/
  (exists sensor_id,
     trace (snd run)
     = (trace w ++ [Sent (lookup_of access_token farm_id);
                    Sent (publish_of access_token farm_id sensor_id
                            rainfall_inches time_ms)])%list).
Proof.
  cbv zeta.
  destruct (update_rainfall_shape access_token farm_id rainfall_inches
              time_ms w) as [[He Ht] | (sensor_id & _ & _ & Ht)].
  - left. now split.
  - right. now exists sensor_id.
Qed.

Lemma error_messages_non_mapping (errors : list pyval) :
  existsb (fun err => negb (is_mapping err)) errors = true ->
  error_messages py_str errors = Raise AttributeError.
Proof.
  induction errors as [| err rest IH]; [discriminate |].
  cbn [existsb error_messages]. intros H.
  destruct err as [| | | | | | d]; try reflexivity.
  cbn [is_mapping negb orb] in H. rewrite (IH H). reflexivity.
Qed.

(** X24: an [errors] list with an entry that is not a mapping (a bare
    string, say) does not give the aggregated [ValueError]: reading
    [err.get] on that entry raises [AttributeError], which is what the
    operation fails with. *)
Theorem update_rainfall_malformed_error_entry
    (access_token farm_id sensor_id : pyval) (rainfall_inches : float)
    (time_ms : Z) (w w1 : world) (body : dict) (errors : list pyval)
    (rest : list http_reply) :
  get_rain_gauge_sensor_id access_token farm_id w = (Ok sensor_id, w1) ->
  sensor_id <> PNone ->
  replies w1 = Reply (PDict body) :: rest ->
  lookup "errors" body = Some (PList errors) ->
  existsb (fun err => negb (is_mapping err)) errors = true ->
  update_rainfall py_str access_token farm_id rainfall_inches time_ms w
  = (Raise AttributeError,
     answered w1
       (publish_of access_token farm_id sensor_id rainfall_inches time_ms)
       rest).
Proof.
  intros Hget Hne Hrep Herr Hbad. unfold update_rainfall, update_rainfall_with.
  rewrite (bind_ok _ _ _ _ _ (resolve_sensor_found _ _ _ _ _ _ Hget Hne)).
  unfold publish.
  rewrite (guarded_exchange_reply _ (check_graphql_errors py_str) w1
             (PDict body) rest Hrep).
  unfold check_graphql_errors, py_contains, mem, getitem_str. rewrite Herr.
  cbn [rbind Tempest.py_iter].
  rewrite (error_messages_non_mapping errors Hbad). reflexivity.
Qed.

End AgriwebbBehaviour.


Lemma update_rainfall_malformed_error_entry_witness :
  let body := [("errors", PList [PStr "rate limited"])] in
  let w := Samples.world_with [Reply Samples.backyard_gauge; Reply (PDict body)] in
  let w1 := answered w Samples.lookup_request [Reply (PDict body)] in
  AgriWebb.get_rain_gauge_sensor_id (PStr "token") (PStr "farm-1") w
  = (Ok (PStr "sensor-backyard"), w1) /\
  lookup "errors" body = Some (PList [PStr "rate limited"]) /\
  fst (AgriWebb.update_rainfall Samples.show (PStr "token") (PStr "farm-1")
         0.5%float 1699920000000 w)
  = Raise AttributeError.
Proof.
  intros body w w1. split; [reflexivity |]. split; [reflexivity |].
  rewrite (update_rainfall_malformed_error_entry Samples.show
             (PStr "token") (PStr "farm-1") (PStr "sensor-backyard")
             0.5%float 1699920000000 w w1 body [PStr "rate limited"] []);
    [reflexivity | reflexivity | discriminate | reflexivity | reflexivity
    | reflexivity].
Defined.

(* ================================================================= *)
(** ** The handler, outcome by outcome *)

Section HandlerBehaviour.

Import Main Shape Behaviour Samples.

Variable py_str : pyval -> string.

Lemma bind_inv {A B} (m : M A) (k : A -> M B) (w w' : world) (b : B) :
  bind m k w = (Ok b, w') ->
  exists a w1, m w = (Ok a, w1) /\ k a w1 = (Ok b, w').
Proof.
  unfold bind. destruct (m w) as [[a | e] w1]; [| discriminate].
  intros H. now exists a, w1.
Qed.

Lemma lift_inv {A} (r : result A) (w w' : world) (a : A) :
  lift r w = (Ok a, w') -> r = Ok a /\ w' = w.
Proof. unfold lift. intros [= -> ->]. now split. Qed.

(** A returned record comes out of the three steps in sequence. *)
Lemma lambda_handler_inv (event context : pyval) (w w' : world)
    (r : invocation_result) :
  lambda_handler py_str event context w = (Ok r, w') ->
  exists event_time observations api_response rainfall_mm w1,
    fetch_stage event w
    = (Ok (event_time, (observations, api_response)), w1) /\
    Tempest.extract_precip_accum_local_yesterday api_response = Ok rainfall_mm /\
    relay_stage py_str event_time observations rainfall_mm w1 = (Ok r, w').
Proof.
  unfold lambda_handler, try_with.
  destruct (bind _ _ w) as [[r0 | e] w0] eqn:E; [| discriminate].
  intros [= -> ->].
  apply bind_inv in E as ([et [obs api]] & w1 & Hf & E).
  cbn [fst snd] in E.
  apply bind_inv in E as (mm & w2 & Hx & E).
  apply lift_inv in Hx as [Hx ->].
  now exists et, obs, api, mm, w1.
Qed.

(** What the publishing branch has done when it returns. *)
Lemma relay_stage_published (event_time : pyval) (observations : list pyval)
    (mm : pyval) (w1 w' : world) (r : invocation_result) :
  mm <> PNone ->
  relay_stage py_str event_time observations mm w1 = (Ok r, w') ->
  exists inches day access_token farm_id sensor_id before,
    to_inches mm = Ok inches /\
    r = {| status := success;
           message := "Successfully retrieved and updated rainfall data";
           event_time := event_time;
           rainfall_mm := mm;
           rainfall_inches := Some inches;
           date := Some day;
           observations_count := Z.of_nat (List.length observations);
           agriwebb_updated := true |} /\
    trace w'
    = (before ++ [Sent (lookup_of access_token farm_id);
                  Sent (publish_of access_token farm_id sensor_id inches
                          (day * 86400 * 1000))])%list.
Proof.
  intros Hne H.
  assert (Hchain :
    exists inches t w2 tok w3 farm w4 res,
      to_inches mm = Ok inches /\
      now w1 = (Ok t, w2) /\
      Utils.get_parameter_from_ssm AGRIWEBB_ACCESS_TOKEN_PARAMETER w2
      = (Ok tok, w3) /\
      Utils.get_parameter_from_ssm AGRIWEBB_FARM_ID_PARAMETER w3
      = (Ok farm, w4) /\
      AgriWebb.update_rainfall py_str tok farm inches
        ((t - 86400) / 86400 * 86400 * 1000) w4 = (Ok res, w') /\
      r = {| status := success;
             message := "Successfully retrieved and updated rainfall data";
             event_time := event_time;
             rainfall_mm := mm;
             rainfall_inches := Some inches;
             date := Some ((t - 86400) / 86400);
             observations_count := Z.of_nat (List.length observations);
             agriwebb_updated := true |}).
  { destruct mm; [contradiction | | | | | |];
      unfold relay_stage in H;
      apply bind_inv in H as (inches & wa & Hi & H);
      apply lift_inv in Hi as [Hi ->];
      apply bind_inv in H as (t & w2 & Ht & H);
      apply bind_inv in H as (tok & w3 & Htok & H);
      apply bind_inv in H as (farm & w4 & Hfarm & H);
      apply bind_inv in H as (res & w5 & Hup & H);
      injection H as <- <-;
      exists inches, t, w2, tok, w3, farm, w4, res;
      repeat split; assumption. }
  destruct Hchain as (inches & t & w2 & tok & w3 & farm & w4 & res
                      & Hi & _ & _ & _ & Hup & ->).
  destruct (update_rainfall_shape py_str tok farm inches
              ((t - 86400) / 86400 * 86400 * 1000) w4)
    as [[(e & He) _] | (sid & _ & _ & Htr)].
  - rewrite Hup in He. discriminate.
  - rewrite Hup in Htr. cbn [snd] in Htr.
    exists inches, ((t - 86400) / 86400), tok, farm, sid, (trace w4).
    split; [exact Hi |]. split; [reflexivity | exact Htr].
Qed.


(** X26: a record with status [partial_success] is returned only when
    there was no value: its [rainfall_mm] is [None], it carries no
    [rainfall_inches] and no [date], and nothing was sent to AgriWebb
    during the invocation. *)
Theorem partial_record_means_nothing_sent (event context : pyval)
    (w w' : world) (r : invocation_result) :
  lambda_handler py_str event context w = (Ok r, w') ->
  status r = partial_success ->
  rainfall_mm r = PNone /\
  rainfall_inches r = None /\
  date r = None /\
  agriwebb_updated r = false /\
  agriwebb_requests w' = agriwebb_requests w.
Proof.
  intros H Hs.
  apply lambda_handler_inv in H as (et & obs & api & mm & w1 & Hf & _ & H).
  destruct (pyval_is_none mm) as [-> | Hne].
  - cbn [relay_stage] in H. injection H as <- <-.
    repeat (split; [reflexivity |]).
    pose proof (quiet_fetch_stage event w) as Hq. now rewrite Hf in Hq.
  - destruct (relay_stage_published et obs mm w1 w' r Hne H)
      as (inches & day & tok & farm & sid & before & _ & -> & _).
    discriminate.
Qed.

Lemma lambda_handler_after_fetch (event context event_time : pyval)
    (observations : list pyval) (api_response rainfall_mm : pyval)
    (w w1 : world) :
  fetch_stage event w = (Ok (event_time, (observations, api_response)), w1) ->
  Tempest.extract_precip_accum_local_yesterday api_response = Ok rainfall_mm ->
  lambda_handler py_str event context w
  = try_with (relay_stage py_str event_time observations rainfall_mm)
      (fun e => raise e) w1.
Proof.
  intros Hf Hx. unfold lambda_handler, try_with.
  rewrite (bind_ok _ _ _ _ _ Hf). cbn [fst snd]. rewrite Hx. reflexivity.
Qed.

(** X27: a value that is text, a list or a mapping is not validated: the
    conversion raises [TypeError], the handler re-raises it, and nothing
    has been sent to AgriWebb. *)
Theorem handler_rejects_non_numeric_value (event context event_time : pyval)
    (observations : list pyval) (api_response v : pyval) (w w1 : world) :
  fetch_stage event w = (Ok (event_time, (observations, api_response)), w1) ->
  Tempest.extract_precip_accum_local_yesterday api_response = Ok v ->
  not_a_number v = true ->
  lambda_handler py_str event context w = (Raise TypeError, w1) /\
  agriwebb_requests w1 = agriwebb_requests w.
Proof.
  intros Hf Hx Hv. split.
  - rewrite (lambda_handler_after_fetch event context event_time observations
               api_response v w w1 Hf Hx).
    destruct v; try discriminate; reflexivity.
  - pose proof (quiet_fetch_stage event w) as Hq. now rewrite Hf in Hq.
Qed.

(** X28: when the Tempest token cannot be read, the handler fails with
    the reader's error after that single read of the store: no other
    parameter is read and no HTTP request is made. *)
Theorem handler_stops_at_unreadable_token (event : dict) (context : pyval)
    (w w1 : world) (e : exn) :
  Utils.get_parameter_from_ssm TEMPEST_TOKEN_PARAMETER w = (Raise e, w1) ->
  lambda_handler py_str (PDict event) context w = (Raise e, w1) /\
  trace w1 = (trace w ++ [GetParameter TEMPEST_TOKEN_PARAMETER])%list /\
  replies w1 = replies w.
Proof.
  intros H. split; [| split].
  - unfold lambda_handler, try_with, fetch_stage.
    unfold bind at 1. unfold bind at 1. cbn [py_get lift].
    unfold bind at 1. cbn [py_get lift].
    rewrite (bind_raise _ _ _ _ _ H). reflexivity.
  - pose proof (get_parameter_world TEMPEST_TOKEN_PARAMETER w) as Hw.
    rewrite H in Hw. cbn [snd] in Hw. now subst w1.
  - pose proof (get_parameter_world TEMPEST_TOKEN_PARAMETER w) as Hw.
    rewrite H in Hw. cbn [snd] in Hw. now subst w1.
Qed.

(** X29: a body that is not a mapping (a JSON array, say, which the
    fetcher accepts and normalises) never leads to a publish: the
    extractor finds nothing in it and the handler returns the
    [partial_success] record with the count of normalised observations. *)
Theorem handler_skips_non_mapping_body (event context event_time : pyval)
    (observations : list pyval) (api_response : pyval) (w w1 : world) :
  fetch_stage event w = (Ok (event_time, (observations, api_response)), w1) ->
  is_mapping api_response = false ->
  lambda_handler py_str event context w
  = (Ok {| status := partial_success;
           message := "Retrieved observations but could not extract rainfall amount";
           event_time := event_time;
           rainfall_mm := PNone;
           rainfall_inches := None;
           date := None;
           observations_count := Z.of_nat (List.length observations);
           agriwebb_updated := false |}, w1).
Proof.
  intros Hf Hm.
  assert (Hx : Tempest.extract_precip_accum_local_yesterday api_response
               = Ok PNone) by (destruct api_response; [.. | discriminate]; reflexivity).
  rewrite (lambda_handler_after_fetch event context event_time observations
             api_response PNone w w1 Hf Hx).
  reflexivity.
Qed.

End HandlerBehaviour.


Lemma partial_record_means_nothing_sent_witness :
  let w := Samples.world_with [Reply Samples.with_empty_row] in
  let r := {| Main.status := Main.partial_success;
              Main.message := "Retrieved observations but could not extract rainfall amount";
              Main.event_time := PStr "2023-11-14T22:13:20Z";
              Main.rainfall_mm := PNone;
              Main.rainfall_inches := None;
              Main.date := None;
              Main.observations_count := 1;
              Main.agriwebb_updated := false |} in
  let run := Main.lambda_handler Samples.show Samples.scheduled_event PNone w in
  run = (Ok r, snd run) /\
  Main.status r = Main.partial_success /\
  Shape.agriwebb_requests (snd run) = [].
Proof.
  intros w r run.
  assert (Hrun : run = (Ok r, snd run)) by reflexivity.
  split; [exact Hrun |]. split; [reflexivity |].
  destruct (partial_record_means_nothing_sent Samples.show
              Samples.scheduled_event PNone w (snd run) r Hrun eq_refl)
    as (_ & _ & _ & _ & Hq).
  exact Hq.
Defined.

Lemma handler_rejects_non_numeric_value_witness :
  let w := Samples.world_with [Reply Scenarios.text_body; Reply Samples.backyard_gauge] in
  let w1 := snd (Main.fetch_stage Samples.scheduled_event w) in
  Main.fetch_stage Samples.scheduled_event w
  = (Ok (PStr "2023-11-14T22:13:20Z", ([], Scenarios.text_body)), w1) /\
  Tempest.extract_precip_accum_local_yesterday Scenarios.text_body
  = Ok (PStr "25.4") /\
  Main.lambda_handler Samples.show Samples.scheduled_event PNone w
  = (Raise TypeError, w1) /\
  replies w1 = [Reply Samples.backyard_gauge].
Proof.
  intros w w1. split; [reflexivity |]. split; [reflexivity |].
  split; [| reflexivity].
  apply (handler_rejects_non_numeric_value Samples.show
           Samples.scheduled_event PNone (PStr "2023-11-14T22:13:20Z") []
           Scenarios.text_body (PStr "25.4") w w1);
    reflexivity.
Defined.

Lemma handler_stops_at_unreadable_token_witness :
  let w := Scenarios.locked_out in
  exists msg w1,
    Utils.get_parameter_from_ssm Main.TEMPEST_TOKEN_PARAMETER w
    = (Raise (ValueError msg), w1) /\
    Main.lambda_handler Samples.show Samples.scheduled_event PNone w
    = (Raise (ValueError msg), w1) /\
    trace w1 = [GetParameter Main.TEMPEST_TOKEN_PARAMETER] /\
    replies w1 = [Reply Scenarios.rainy_body].
Proof.
  intros w. eexists. eexists. split; [reflexivity |].
  apply (handler_stops_at_unreadable_token Samples.show
           [("source", PStr "aws.events"); ("time", PStr "2023-11-14T22:13:20Z")]
           PNone w).
  reflexivity.
Defined.

Lemma handler_skips_non_mapping_body_witness :
  let w := Samples.world_with [Reply Scenarios.array_body] in
  let w1 := snd (Main.fetch_stage Samples.scheduled_event w) in
  let kept := [Tempest.wrapper (PInt 1699920000)
                 (PDict [("timestamp", PInt 1699920000);
                         (Tempest.KEY, PFloat 5.5)])] in
  Main.fetch_stage Samples.scheduled_event w
  = (Ok (PStr "2023-11-14T22:13:20Z", (kept, Scenarios.array_body)), w1) /\
  Behaviour.is_mapping Scenarios.array_body = false /\
  fst (Main.lambda_handler Samples.show Samples.scheduled_event PNone w)
  = Ok {| Main.status := Main.partial_success;
          Main.message := "Retrieved observations but could not extract rainfall amount";
          Main.event_time := PStr "2023-11-14T22:13:20Z";
          Main.rainfall_mm := PNone;
          Main.rainfall_inches := None;
          Main.date := None;
          Main.observations_count := 1;
          Main.agriwebb_updated := false |}.
Proof.
  intros w w1 kept. split; [reflexivity |]. split; [reflexivity |].
  rewrite (handler_skips_non_mapping_body Samples.show
             Samples.scheduled_event PNone (PStr "2023-11-14T22:13:20Z") kept
             Scenarios.array_body w w1 eq_refl eq_refl).
  reflexivity.
Defined.
